(** * INAV real-time clock: calendar conversion, clock state and timestamp
    rendering ([src/main/common/time.c]).

    The C code is embedded shallowly: fixed-width integers are [Z] values
    with the wrap-around of every conversion written out, [/] and [%] are
    the truncating [Z.quot] and [Z.rem], the file-scoped variable [started]
    is threaded explicitly, and the reading of the uptime counter [millis()]
    is an argument of the operations that consult it.  [int] is 32 bits
    wide, as on the targets of the firmware; a conversion to a signed type
    that does not hold the value, and signed overflow, wrap around in two's
    complement.  A read outside the table [days] has no value: the
    functions that can make one return an [option]. *)

From Stdlib Require Import ZArith List String Ascii Bool Lia DecimalString.
Import ListNotations.
Local Open Scope Z_scope.

(** ** Fixed-width integers *)

Module CInt.

(** Conversion to an unsigned type of [w] bits. *)
Definition to_unsigned (w x : Z) : Z := x mod 2 ^ w.

(** Conversion to a two's complement signed type of [w] bits. *)
Definition to_signed (w x : Z) : Z := (x + 2 ^ (w - 1)) mod 2 ^ w - 2 ^ (w - 1).

Definition u8 : Z -> Z := to_unsigned 8.
Definition u16 : Z -> Z := to_unsigned 16.
Definition u32 : Z -> Z := to_unsigned 32.
Definition s32 : Z -> Z := to_signed 32.
Definition s64 : Z -> Z := to_signed 64.

(** Modelled from the spec: the macro [ABS] comes from [common/maths.h],
    which is not among the translated sources; the spec reads it as the
    absolute value. *)
Definition ABS (x : Z) : Z := Z.abs x.

End CInt.
Import CInt.

(** ** Data model *)

(** [rtcTime_t] is a signed 64-bit count of milliseconds. *)
Definition rtcTime_t : Type := Z.

(** Modelled from the spec: [dateTime_t] is declared in [common/time.h],
    which is not among the translated sources.  The fields are those the
    code assigns and the spec lists with their ranges; the widths taken
    here are 16 bits for [year] and [millis] and 8 bits for the other
    five, unsigned.  Each [set_] function is an assignment to one field,
    with the conversion to the width of the field. *)
Record dateTime_t : Type := mkDateTime {
  year : Z;
  month : Z;
  day : Z;
  hours : Z;
  minutes : Z;
  seconds : Z;
  millis : Z
}.

Definition set_year (v : Z) (dt : dateTime_t) : dateTime_t :=
  mkDateTime (u16 v) (month dt) (day dt) (hours dt) (minutes dt) (seconds dt) (millis dt).
Definition set_month (v : Z) (dt : dateTime_t) : dateTime_t :=
  mkDateTime (year dt) (u8 v) (day dt) (hours dt) (minutes dt) (seconds dt) (millis dt).
Definition set_day (v : Z) (dt : dateTime_t) : dateTime_t :=
  mkDateTime (year dt) (month dt) (u8 v) (hours dt) (minutes dt) (seconds dt) (millis dt).
Definition set_hours (v : Z) (dt : dateTime_t) : dateTime_t :=
  mkDateTime (year dt) (month dt) (day dt) (u8 v) (minutes dt) (seconds dt) (millis dt).
Definition set_minutes (v : Z) (dt : dateTime_t) : dateTime_t :=
  mkDateTime (year dt) (month dt) (day dt) (hours dt) (u8 v) (seconds dt) (millis dt).
Definition set_seconds (v : Z) (dt : dateTime_t) : dateTime_t :=
  mkDateTime (year dt) (month dt) (day dt) (hours dt) (minutes dt) (u8 v) (millis dt).
Definition set_millis (v : Z) (dt : dateTime_t) : dateTime_t :=
  mkDateTime (year dt) (month dt) (day dt) (hours dt) (minutes dt) (seconds dt) (u16 v).

(** Modelled from the spec: [timeConfig_t] is declared in [common/time.h];
    its only field is the signed 16-bit offset in minutes. *)
Record timeConfig_t : Type := mkTimeConfig { tz_offset : Z }.

Definition UNIX_REFERENCE_YEAR : Z := 1970.
Definition MILLIS_PER_SECOND : Z := 1000.

(** [static const uint16_t days[4][12]]. *)
Definition days : list (list Z) :=
  [ [   0;   31;   60;   91;  121;  152;  182;  213;  244;  274;  305;  335];
    [ 366;  397;  425;  456;  486;  517;  547;  578;  609;  639;  670;  700];
    [ 731;  762;  790;  821;  851;  882;  912;  943;  974; 1004; 1035; 1065];
    [1096; 1127; 1155; 1186; 1216; 1247; 1277; 1308; 1339; 1369; 1400; 1430] ].

(** [days[r][c]]; [None] when an index lies outside the table, where the C
    read is undefined. *)
Definition days_get (r c : Z) : option Z :=
  if (0 <=? r) && (r <? 4) && (0 <=? c) && (c <? 12) then
    match nth_error days (Z.to_nat r) with
    | Some row => nth_error row (Z.to_nat c)
    | None => None
    end
  else None.

(** The same read for indices that the loops of [rtcTimeToDateTime] keep
    inside the table (lemma [scan_indices_in_table]). *)
Definition days_at (r c : nat) : Z :=
  match days_get (Z.of_nat r) (Z.of_nat c) with
  | Some d => d
  | None => 0
  end.

(** ** Epoch scalar *)

(** [rtcTimeMake(int32_t secs, uint16_t millis)]: the arguments are
    converted to the parameter types at the call. *)
Definition rtcTimeMake (secs ms : Z) : rtcTime_t :=
  s64 (s32 secs * MILLIS_PER_SECOND + u16 ms).

(** [int32_t rtcTimeGetSeconds(rtcTime_t *t)]. *)
Definition rtcTimeGetSeconds (t : rtcTime_t) : Z := s32 (t ÷ MILLIS_PER_SECOND).

(** [uint16_t rtcTimeGetMillis(rtcTime_t *t)]. *)
Definition rtcTimeGetMillis (t : rtcTime_t) : Z := u16 (Z.rem t MILLIS_PER_SECOND).

(** ** Calendar converter *)

(** The value of the [unsigned int] expression that [dateTimeToRtcTime]
    assigns to [unixTime], before it is reduced modulo [2^32]; [d] is the
    table entry [days[year % 4][month]]. *)
Definition unixTimeOf (dt : dateTime_t) (d : Z) : Z :=
  let second := u32 (seconds dt) in
  let minute := u32 (minutes dt) in
  let hour := u32 (hours dt) in
  let day := u32 (day dt - 1) in
  let year := u32 (year dt - UNIX_REFERENCE_YEAR) in
  (((year / 4 * (365 * 4 + 1) + d + day) * 24 + hour) * 60 + minute) * 60 + second.

(** [static rtcTime_t dateTimeToRtcTime(dateTime_t *dt)].  Unsigned
    arithmetic wraps modulo [2^32], so one reduction of the whole
    expression gives the same value as a reduction after every operation;
    the result is then converted to [int32_t]. *)
Definition dateTimeToRtcTime (dt : dateTime_t) : option rtcTime_t :=
  let month := u32 (month dt - 1) in
  let year := u32 (year dt - UNIX_REFERENCE_YEAR) in
  match days_get (year mod 4) month with
  | Some d =>
      let unixTime := s32 (u32 (unixTimeOf dt d)) in
      Some (rtcTimeMake unixTime (millis dt))
  | None => None
  end.

(** [for (i = start; i > 0; i--) { if (p i) break; }]: the value of [i]
    when the loop is left. *)
Fixpoint scan_down (p : nat -> bool) (i : nat) : nat :=
  match i with
  | O => O
  | S j => if p i then i else scan_down p j
  end.

(** [static void rtcTimeToDateTime(dateTime_t *dt, rtcTime_t t)]: [dt] is
    the record the pointer designates on entry, the result is the record
    on return. *)
Definition rtcTimeToDateTime (dt : dateTime_t) (t : rtcTime_t) : dateTime_t :=
  let unixTime := s32 (t ÷ MILLIS_PER_SECOND) in
  let dt := set_seconds (Z.rem unixTime 60) dt in
  let unixTime := unixTime ÷ 60 in
  let dt := set_minutes (Z.rem unixTime 60) dt in
  let unixTime := unixTime ÷ 60 in
  let dt := set_hours (Z.rem unixTime 24) dt in
  let unixTime := unixTime ÷ 24 in
  let years := u32 (unixTime ÷ (365 * 4 + 1) * 4) in
  let unixTime := Z.rem unixTime (365 * 4 + 1) in
  let year := scan_down (fun year => days_at year 0 <=? unixTime) 3 in
  let month := scan_down (fun month => days_at year month <=? unixTime) 11 in
  let dt := set_year (u32 (years + Z.of_nat year + UNIX_REFERENCE_YEAR)) dt in
  let dt := set_month (u32 (Z.of_nat month + 1)) dt in
  let dt := set_day (unixTime - days_at year month + 1) dt in
  set_millis (Z.rem t MILLIS_PER_SECOND) dt.

(** ** RTC state *)

(** The state is the file-scoped [static rtcTime_t started], the epoch
    scalar of the moment the system started. *)
Definition rtcState : Type := rtcTime_t.

(** [static rtcTime_t started = 0;] *)
Definition started_init : rtcState := 0.

(** [bool rtcHasTime()]. *)
Definition rtcHasTime (started : rtcState) : bool := negb (started =? 0).

(** [bool rtcGet(rtcTime_t *t)]: [Some t] stands for the return value
    [true] with [*t] written, [None] for [false] with [*t] untouched.
    [now] is the value [millis()] returns, an unsigned 32-bit count. *)
Definition rtcGet (now : Z) (started : rtcState) : option rtcTime_t :=
  if negb (rtcHasTime started) then None
  else Some (s64 (started + u32 now)).

(** [bool rtcSet(rtcTime_t *t)]: the new value of [started] and the
    returned flag. *)
Definition rtcSet (now : Z) (t : rtcTime_t) (started : rtcState) : rtcState * bool :=
  (s64 (t - u32 now), true).

(** [bool rtcGetDateTime(dateTime_t *dt)]. *)
Definition rtcGetDateTime (dt : dateTime_t) (now : Z) (started : rtcState)
  : dateTime_t * bool :=
  match rtcGet now started with
  | Some t => (rtcTimeToDateTime dt t, true)
  | None =>
      let dt := set_year 0 dt in
      let dt := set_month 1 dt in
      let dt := set_day 1 dt in
      let dt := set_hours 0 dt in
      let dt := set_minutes 0 dt in
      let dt := set_seconds 0 dt in
      let dt := set_millis 0 dt in
      (dt, false)
  end.

(** [bool rtcSetDateTime(dateTime_t *dt)]; [None] when the conversion
    reads outside the table. *)
Definition rtcSetDateTime (dt : dateTime_t) (now : Z) (started : rtcState)
  : option (rtcState * bool) :=
  match dateTimeToRtcTime dt with
  | Some t => Some (rtcSet now t started)
  | None => None
  end.

(** The operations a caller can apply to the clock, and the state after a
    sequence of them; each operation is paired with the uptime at which
    it runs. *)
Inductive rtcOp : Type :=
| OpSet (t : rtcTime_t)
| OpGet.

Definition rtcStep (started : rtcState) (ev : Z * rtcOp) : rtcState :=
  match snd ev with
  | OpSet t => fst (rtcSet (fst ev) t started)
  | OpGet => started
  end.

Definition rtcRun (evs : list (Z * rtcOp)) (started : rtcState) : rtcState :=
  fold_left rtcStep evs started.

(** ** Timestamp formatter *)

(** The rendering primitive, [common/printf.h]. *)
Module Printf.

Definition decimal (n : Z) : string := NilZero.string_of_uint (N.to_uint (Z.to_N n)).

Fixpoint fill (n : nat) (c : ascii) (s : string) : string :=
  match n with
  | O => s
  | S k => String c (fill k c s)
  end.

(** A number field of minimum width [w]: zero fill goes between the
    sign and the digits, space fill before the sign. *)
Definition number (lz : bool) (w : nat) (n : Z) : string :=
  if n <? 0 then
    let body := decimal (- n) in
    if lz then String "-" (fill (w - 1 - String.length body) "0" body)
    else fill (w - 1 - String.length body) " " (String "-" body)
  else
    let body := decimal n in
    fill (w - String.length body) (if lz then "0" else " ")%char body.

Definition digit_of (ch : ascii) : option nat :=
  let n := nat_of_ascii ch in
  if ((48 <=? n) && (n <=? 57))%nat then Some (n - 48)%nat else None.

(** Where the scan of the format string stands: in literal text, or
    inside a directive with the zero flag and the width read so far. *)
Inductive mode : Type :=
| Literal
| Directive (lz : bool) (seen_width : bool) (w : nat).

Fixpoint format (m : mode) (fmt : string) (args : list Z) : string :=
  match fmt with
  | EmptyString => EmptyString
  | String ch rest =>
      match m with
      | Literal =>
          if Ascii.eqb ch "%" then format (Directive false false 0) rest args
          else String ch (format Literal rest args)
      | Directive lz seen w =>
          match digit_of ch with
          | Some d =>
              if negb seen && negb lz && Nat.eqb d 0
              then format (Directive true false 0) rest args
              else format (Directive lz true (10 * w + d)) rest args
          | None =>
              match args with
              | a :: args' =>
                  if Ascii.eqb ch "u" then
                    (number lz w (u32 a) ++ format Literal rest args')%string
                  else if Ascii.eqb ch "d" then
                    (number lz w (s32 a) ++ format Literal rest args')%string
                  else if Ascii.eqb ch "c" then
                    String (ascii_of_nat (Z.to_nat (u8 a))) (format Literal rest args')
                  else format Literal rest args
              | [] => format Literal rest args
              end
          end
      end
  end.

(** Modelled from the spec: the rendering primitive [tfp_sprintf] of
    [common/printf.h] is not among the translated sources; the spec
    describes it as fixed-field printf-style rendering.  The model covers
    the directives of the one format string the code uses: [%0<w>u],
    [%0<w>d], [%c] and literal characters.  The arguments are the [int]
    values the variadic call receives. *)
Definition tfp_sprintf (fmt : string) (args : list Z) : string :=
  format Literal fmt args.

End Printf.
Import Printf.

Definition char_code (c : ascii) : Z := Z.of_nat (nat_of_ascii c).

(** The [tfp_sprintf] call that ends [dateTimeFormat]. *)
Definition render (dateTime : dateTime_t) (tz_hours tz_minutes : Z) : string :=
  tfp_sprintf "%04u-%02u-%02uT%02u:%02u:%02u.%03u%c%02d:%02d"
    [ year dateTime; month dateTime; day dateTime;
      hours dateTime; minutes dateTime; seconds dateTime; millis dateTime;
      (if 0 <=? tz_hours then char_code "+" else char_code "-");
      ABS tz_hours; tz_minutes ].

(** [static void dateTimeFormat(char *buf, dateTime_t *dateTime, int16_t offset)]:
    the string written to [buf].  [local] is the uninitialised automatic
    record that [rtcTimeToDateTime] fills. *)
Definition dateTimeFormat (local dateTime : dateTime_t) (offset : Z) : option string :=
  if negb (offset =? 0) then
    let tz_hours := offset ÷ 60 in
    let tz_minutes := ABS (Z.rem offset 60) in
    match dateTimeToRtcTime dateTime with
    | Some utcTime =>
        let localTime :=
          rtcTimeMake (rtcTimeGetSeconds utcTime + offset * 60) (rtcTimeGetMillis utcTime) in
        let local := rtcTimeToDateTime local localTime in
        Some (render local tz_hours tz_minutes)
    | None => None
    end
  else Some (render dateTime 0 0).

(** [void dateTimeFormatUTC(char *buf, dateTime_t *dt)]. *)
Definition dateTimeFormatUTC (local dt : dateTime_t) : option string :=
  dateTimeFormat local dt 0.

(** [void dateTimeFormatLocal(char *buf, dateTime_t *dt)]; [cfg] is the
    record that [timeConfig()] designates. *)
Definition dateTimeFormatLocal (cfg : timeConfig_t) (local dt : dateTime_t) : option string :=
  dateTimeFormat local dt (tz_offset cfg).

(** The two parts of the rendered text: the seven calendar fields with
    their separators, and the sign, hours and minutes of the offset. *)
Definition date_part (dt : dateTime_t) : string :=
  (number true 4 (u32 (year dt)) ++ "-" ++ number true 2 (u32 (month dt)) ++ "-" ++
   number true 2 (u32 (day dt)) ++ "T" ++ number true 2 (u32 (hours dt)) ++ ":" ++
   number true 2 (u32 (minutes dt)) ++ ":" ++ number true 2 (u32 (seconds dt)) ++ "." ++
   number true 3 (u32 (millis dt)))%string.

Definition tz_suffix (tz_hours tz_minutes : Z) : string :=
  String (if 0 <=? tz_hours then "+"%char else "-"%char)
         (number true 2 (s32 (ABS tz_hours)) ++ ":" ++ number true 2 (s32 tz_minutes))%string.

(** ** Reference calendar

    The proleptic Gregorian calendar, against which the validity of a
    calendar record is judged. *)

Definition is_leap_year (y : Z) : bool :=
  ((y mod 4 =? 0) && negb (y mod 100 =? 0)) || (y mod 400 =? 0).

Definition days_in_month (y m : Z) : Z :=
  if m =? 2 then (if is_leap_year y then 29 else 28)
  else if (m =? 4) || (m =? 6) || (m =? 9) || (m =? 11) then 30
  else 31.

(** A valid calendar record of the supported era. *)
Definition valid_dateTime (dt : dateTime_t) : Prop :=
  UNIX_REFERENCE_YEAR <= year dt /\
  1 <= month dt <= 12 /\
  1 <= day dt <= days_in_month (year dt) (month dt) /\
  0 <= hours dt <= 23 /\
  0 <= minutes dt <= 59 /\
  0 <= seconds dt <= 59 /\
  0 <= millis dt <= 999.

(** The record lies before 2038-01-19T03:14:08, the first instant whose
    count of seconds exceeds a signed 32-bit integer. *)
Definition before_rollover (dt : dateTime_t) : Prop :=
  year dt < 2038 \/
  (year dt = 2038 /\ month dt = 1 /\
   (day dt < 19 \/
    (day dt = 19 /\ (hours dt * 60 + minutes dt) * 60 + seconds dt < (3 * 60 + 14) * 60 + 8))).

(** The epoch scalar has a count of whole seconds that fits [int32_t]. *)
Definition seconds_fit_int32 (t : rtcTime_t) : Prop :=
  0 <= t /\ t / MILLIS_PER_SECOND <= 2147483647.

(** The range of the [uint32_t] value [millis()] returns, and of an
    [rtcTime_t]. *)
Definition is_uptime (now : Z) : Prop := 0 <= now < 4294967296.
Definition is_rtcTime (t : Z) : Prop :=
  -9223372036854775808 <= t < 9223372036854775808.

(** The event, if it is a set, is given an epoch that differs from the
    uptime at which it runs. *)
Definition set_off_uptime (ev : Z * rtcOp) : Prop :=
  match snd ev with
  | OpSet t => is_uptime (fst ev) /\ is_rtcTime t /\ t <> fst ev
  | OpGet => True
  end.

(** A record standing for whatever an output record holds before a call
    writes to it. *)
Definition stale : dateTime_t := mkDateTime 9 9 9 9 9 9 9.

(** ** Auxiliary definitions for the proofs *)

(** The two loops of [rtcTimeToDateTime], named. *)
Definition scan_year (ut : Z) : nat :=
  scan_down (fun year => days_at year 0 <=? ut) 3.

Definition scan_month (year : nat) (ut : Z) : nat :=
  scan_down (fun month => days_at year month <=? ut) 11.

(** Number of days the table gives to column [m] of row [y]. *)
Definition table_month_length (y m : nat) : Z :=
  (if (m <? 11)%nat then days_at y (S m)
   else if (y <? 3)%nat then days_at (S y) 0
   else 365 * 4 + 1) - days_at y m.

(** Checks run over the 1461 days of a 4-year group and over the 48
    cells of the table. *)
Definition scan_checked (r : Z) : bool :=
  let y := scan_year r in
  let m := scan_month y r in
  (days_at y m <=? r) && (r - days_at y m <? table_month_length y m)
  && (table_month_length y m <=? 31).

Definition cell_checked (y m : nat) : bool :=
  forallb (fun d0 =>
             let r := days_at y m + d0 in
             (scan_year r =? y)%nat && (scan_month y r =? m)%nat
             && (0 <=? r) && (r <? 1461))
          (map Z.of_nat (seq 0 (Z.to_nat (table_month_length y m)))).

(** The fields [rtcTimeToDateTime] computes, in terms of floor division:
    for a non-negative epoch whose seconds fit [int32_t] no conversion
    wraps and truncating division is floor division. *)
Definition calendar_of (t : rtcTime_t) : dateTime_t :=
  let secs := t / 1000 in
  let dayno := secs / 60 / 60 / 24 in
  let r := dayno mod 1461 in
  let y := scan_year r in
  let m := scan_month y r in
  mkDateTime (dayno / 1461 * 4 + Z.of_nat y + 1970) (Z.of_nat m + 1)
             (r - days_at y m + 1)
             (secs / 60 / 60 mod 24) (secs / 60 mod 60) (secs mod 60) (t mod 1000).

(** Length of a month in a year that is not a leap year. *)
Definition common_month_length (m : Z) : Z :=
  if m =? 2 then 28
  else if (m =? 4) || (m =? 6) || (m =? 9) || (m =? 11) then 30
  else 31.

(** The day number and the second of the day that [dateTimeToRtcTime]
    computes from a record, without the reductions to 32 bits. *)
Definition table_days (dt : dateTime_t) : Z :=
  (year dt - 1970) / 4 * 1461
  + days_at (Z.to_nat ((year dt - 1970) mod 4)) (Z.to_nat (month dt - 1))
  + (day dt - 1).

Definition second_of_day (dt : dateTime_t) : Z :=
  (hours dt * 60 + minutes dt) * 60 + seconds dt.

(** Days from 1970-01-01 to a date in the reference calendar: the years
    before it, the months before it in its year, the days before it in
    its month. *)
Definition year_length (y : Z) : Z := if is_leap_year y then 366 else 365.

Fixpoint days_of_years (n : nat) (y : Z) : Z :=
  match n with
  | O => 0
  | S k => year_length y + days_of_years k (y + 1)
  end.

Fixpoint days_of_months (n : nat) (y m : Z) : Z :=
  match n with
  | O => 0
  | S k => days_in_month y m + days_of_months k y (m + 1)
  end.

Definition unix_month_start (y m : Z) : Z :=
  days_of_years (Z.to_nat (y - 1970)) 1970 + days_of_months (Z.to_nat (m - 1)) y 1.

Definition unix_days (dt : dateTime_t) : Z :=
  unix_month_start (year dt) (month dt) + (day dt - 1).

(** The months in which the table runs one day ahead of the reference
    calendar: from March of the first year of a 4-year group to February
    of its third year. *)
Definition leap_skew (y m : Z) : Z :=
  let r := (y - 1970) mod 4 in
  if ((r =? 0) && (3 <=? m)) || (r =? 1) || ((r =? 2) && (m <=? 2)) then 1 else 0.

Definition month_start_checked (y m : Z) : bool :=
  (y - 1970) / 4 * 1461 + days_at (Z.to_nat ((y - 1970) mod 4)) (Z.to_nat (m - 1))
  =? unix_month_start y m + leap_skew y m.

(** The fields of a record are in the ranges of a calendar date and a
    time of day; the day need not exist in the month. *)
Definition fields_in_range (dt : dateTime_t) : Prop :=
  1970 <= year dt /\ 1 <= month dt <= 12 /\ 1 <= day dt <= 31 /\
  0 <= hours dt <= 23 /\ 0 <= minutes dt <= 59 /\ 0 <= seconds dt <= 59 /\
  0 <= millis dt <= 999.

(** * Properties *)

(** ** Integer conversions inside their range *)

Lemma u8_small (x : Z) : 0 <= x < 256 -> u8 x = x.
Proof. intros H. unfold u8, to_unsigned. apply Z.mod_small. exact H. Qed.

Lemma u16_small (x : Z) : 0 <= x < 65536 -> u16 x = x.
Proof. intros H. unfold u16, to_unsigned. apply Z.mod_small. exact H. Qed.

Lemma u32_small (x : Z) : 0 <= x < 4294967296 -> u32 x = x.
Proof. intros H. unfold u32, to_unsigned. apply Z.mod_small. exact H. Qed.

Lemma s32_small (x : Z) : -2147483648 <= x < 2147483648 -> s32 x = x.
Proof.
  intros H. unfold s32, to_signed.
  change (2 ^ (32 - 1)) with 2147483648. change (2 ^ 32) with 4294967296.
  rewrite Z.mod_small; lia.
Qed.

Lemma s64_small (x : Z) :
  -9223372036854775808 <= x < 9223372036854775808 -> s64 x = x.
Proof.
  intros H. unfold s64, to_signed.
  change (2 ^ (64 - 1)) with 9223372036854775808.
  change (2 ^ 64) with 18446744073709551616.
  rewrite Z.mod_small; lia.
Qed.

Lemma s64_zero_iff (x : Z) :
  -18446744073709551616 < x < 18446744073709551616 -> s64 x = 0 <-> x = 0.
Proof.
  intros H. unfold s64, to_signed.
  change (2 ^ (64 - 1)) with 9223372036854775808.
  change (2 ^ 64) with 18446744073709551616.
  split; [intros E | intros ->; reflexivity].
  pose proof (Z.div_mod (x + 9223372036854775808) 18446744073709551616 ltac:(lia)) as D.
  pose proof (Z.mod_pos_bound (x + 9223372036854775808) 18446744073709551616 ltac:(lia)) as B.
  lia.
Qed.

(** ** The table scans *)

Lemma scan_down_le (p : nat -> bool) (n : nat) : (scan_down p n <= n)%nat.
Proof.
  induction n as [|n IH]; simpl; [lia|].
  destruct (p (S n)); lia.
Qed.

Lemma days_get_in_table (r c : nat) :
  (r <= 3)%nat -> (c <= 11)%nat -> days_get (Z.of_nat r) (Z.of_nat c) = Some (days_at r c).
Proof.
  intros Hr Hc.
  do 4 (destruct r as [|r]; [do 12 (destruct c as [|c]; [reflexivity|]); lia|]).
  lia.
Qed.

(** The loops leave the row in [0..3] and the column in [0..11], so every
    table read of [rtcTimeToDateTime] is inside the table. *)
Lemma scan_indices_in_table (ut : Z) :
  let y := scan_year ut in
  let m := scan_month y ut in
  (y <= 3)%nat /\ (m <= 11)%nat /\ days_get (Z.of_nat y) (Z.of_nat m) = Some (days_at y m).
Proof.
  intros y m.
  assert (Hy : (y <= 3)%nat) by apply scan_down_le.
  assert (Hm : (m <= 11)%nat) by apply scan_down_le.
  auto using days_get_in_table.
Qed.

Lemma scan_checked_all :
  forallb scan_checked (map Z.of_nat (seq 0 1461)) = true.
Proof. vm_compute. reflexivity. Qed.

Lemma in_group_days (r : Z) : 0 <= r < 1461 -> In r (map Z.of_nat (seq 0 1461)).
Proof.
  intros H. apply in_map_iff. exists (Z.to_nat r). split; [lia|].
  apply in_seq. lia.
Qed.

(** Within a 4-year group the scans find the table cell that holds the
    day. *)
Lemma scan_finds_cell (r : Z) :
  0 <= r < 1461 ->
  let y := scan_year r in
  let m := scan_month y r in
  days_at y m <= r < days_at y m + table_month_length y m /\
  table_month_length y m <= 31.
Proof.
  intros H y m.
  pose proof (proj1 (forallb_forall _ _) scan_checked_all r (in_group_days r H)) as C.
  unfold scan_checked in C. fold y in C. fold m in C.
  apply andb_true_iff in C. destruct C as [C C3].
  apply andb_true_iff in C. destruct C as [C1 C2].
  apply Z.leb_le in C1. apply Z.ltb_lt in C2. apply Z.leb_le in C3. lia.
Qed.

Lemma cell_checked_all :
  forallb (fun y => forallb (cell_checked y) (seq 0 12)) (seq 0 4) = true.
Proof. vm_compute. reflexivity. Qed.

(** Conversely, every day of a table cell is found by the scans. *)
Lemma cell_is_found (y m : nat) (d0 : Z) :
  (y <= 3)%nat -> (m <= 11)%nat -> 0 <= d0 < table_month_length y m ->
  let r := days_at y m + d0 in
  scan_year r = y /\ scan_month y r = m /\ 0 <= r < 1461.
Proof.
  intros Hy Hm Hd r.
  pose proof (proj1 (forallb_forall _ _) cell_checked_all y) as Cy.
  assert (Iy : In y (seq 0 4)) by (apply in_seq; lia).
  pose proof (proj1 (forallb_forall _ _) (Cy Iy) m) as Cm.
  assert (Im : In m (seq 0 12)) by (apply in_seq; lia).
  pose proof (proj1 (forallb_forall _ _) (Cm Im) d0) as Cd.
  assert (Id : In d0 (map Z.of_nat (seq 0 (Z.to_nat (table_month_length y m))))).
  { apply in_map_iff. exists (Z.to_nat d0). split; [lia|]. apply in_seq. lia. }
  specialize (Cd Id). cbv zeta in Cd. fold r in Cd.
  repeat (apply andb_true_iff in Cd; destruct Cd as [Cd ?]).
  apply Nat.eqb_eq in Cd.
  repeat match goal with
         | H : (_ =? _)%nat = true |- _ => apply Nat.eqb_eq in H
         | H : (_ <=? _) = true |- _ => apply Z.leb_le in H
         | H : (_ <? _) = true |- _ => apply Z.ltb_lt in H
         end.
  auto.
Qed.

(** ** The calendar of a non-negative epoch *)

Lemma rtcTimeToDateTime_calendar_of (dt : dateTime_t) (t : rtcTime_t) :
  seconds_fit_int32 t -> rtcTimeToDateTime dt t = calendar_of t.
Proof.
  intros [H0 H1]. unfold MILLIS_PER_SECOND in H1.
  unfold rtcTimeToDateTime, calendar_of, MILLIS_PER_SECOND, UNIX_REFERENCE_YEAR.
  change (365 * 4 + 1) with 1461.
  assert (Hs : 0 <= t / 1000) by (apply Z.div_pos; lia).
  rewrite (Z.quot_div_nonneg t 1000), (Z.rem_mod_nonneg t 1000) by lia.
  rewrite (s32_small (t / 1000)) by lia.
  set (secs := t / 1000) in *.
  assert (Hm : 0 <= secs / 60) by (apply Z.div_pos; lia).
  assert (Hh : 0 <= secs / 60 / 60) by (apply Z.div_pos; lia).
  assert (Hd : 0 <= secs / 60 / 60 / 24) by (apply Z.div_pos; lia).
  rewrite (Z.rem_mod_nonneg secs 60), (Z.quot_div_nonneg secs 60) by lia.
  rewrite (Z.rem_mod_nonneg (secs / 60) 60), (Z.quot_div_nonneg (secs / 60) 60) by lia.
  rewrite (Z.rem_mod_nonneg (secs / 60 / 60) 24),
          (Z.quot_div_nonneg (secs / 60 / 60) 24) by lia.
  set (dayno := secs / 60 / 60 / 24) in *.
  assert (Hdn : dayno <= 24855).
  { subst dayno.
    assert (secs / 60 < 35791395) by (apply Z.div_lt_upper_bound; lia).
    assert (secs / 60 / 60 < 596524) by (apply Z.div_lt_upper_bound; lia).
    assert (secs / 60 / 60 / 24 < 24856) by (apply Z.div_lt_upper_bound; lia).
    lia. }
  rewrite (Z.rem_mod_nonneg dayno 1461), (Z.quot_div_nonneg dayno 1461) by lia.
  pose proof (Z.mod_pos_bound dayno 1461 ltac:(lia)) as Hr.
  set (r := dayno mod 1461) in *.
  fold (scan_year r). set (y := scan_year r).
  fold (scan_month y r). set (m := scan_month y r).
  destruct (scan_indices_in_table r) as (Hy & Hmo & _). fold y in Hy. fold y m in Hmo.
  destruct (scan_finds_cell r Hr) as (Hc & Hl). fold y m in Hc, Hl.
  assert (Hq : 0 <= dayno / 1461 <= 17).
  { assert (dayno / 1461 < 18) by (apply Z.div_lt_upper_bound; lia).
    split; [apply Z.div_pos; lia | lia]. }
  pose proof (Z.mod_pos_bound secs 60 ltac:(lia)).
  pose proof (Z.mod_pos_bound (secs / 60) 60 ltac:(lia)).
  pose proof (Z.mod_pos_bound (secs / 60 / 60) 24 ltac:(lia)).
  pose proof (Z.mod_pos_bound t 1000 ltac:(lia)).
  unfold set_millis, set_day, set_month, set_year, set_hours, set_minutes, set_seconds.
  cbn [year month day hours minutes seconds millis].
  rewrite (u32_small (dayno / 1461 * 4)) by lia.
  rewrite (u32_small (dayno / 1461 * 4 + Z.of_nat y + 1970)) by lia.
  rewrite (u32_small (Z.of_nat m + 1)) by lia.
  rewrite !u8_small, !u16_small by lia.
  reflexivity.
Qed.

Lemma calendar_of_bounds (t : rtcTime_t) :
  seconds_fit_int32 t ->
  let c := calendar_of t in
  1970 <= year c <= 2041 /\
  1 <= month c <= 12 /\ 1 <= day c <= 31 /\
  0 <= hours c <= 23 /\ 0 <= minutes c <= 59 /\ 0 <= seconds c <= 59 /\
  0 <= millis c <= 999.
Proof.
  intros [H0 H1]. unfold MILLIS_PER_SECOND in H1. unfold calendar_of. cbv zeta.
  cbn [year month day hours minutes seconds millis].
  set (secs := t / 1000) in *.
  set (dayno := secs / 60 / 60 / 24).
  pose proof (Z.mod_pos_bound dayno 1461 ltac:(lia)) as Hr.
  set (r := dayno mod 1461) in *.
  set (y := scan_year r). set (m := scan_month y r).
  destruct (scan_indices_in_table r) as (Hy & Hmo & _). fold y in Hy. fold y m in Hmo.
  destruct (scan_finds_cell r Hr) as (Hc & Hl). fold y m in Hc, Hl.
  assert (Hs : 0 <= secs) by (subst secs; apply Z.div_pos; lia).
  assert (Ht : 0 <= t mod 1000 < 1000) by (apply Z.mod_pos_bound; lia).
  assert (Hq : 0 <= dayno / 1461 <= 17).
  { subst dayno. clearbody secs. Z.div_mod_to_equations. lia. }
  clearbody secs. subst dayno.
  repeat split; try lia; Z.div_mod_to_equations; lia.
Qed.

(** C10.  For every epoch scalar [t >= 0] whose count of whole seconds
    fits a signed 32-bit integer, the record [rtcTimeToDateTime] produces
    has month in 1..12, day in 1..31, hours in 0..23, minutes and seconds
    in 0..59 and millis in 0..999; and whatever day count the two downward
    scans are given, they stop at a row in 0..3 and a column in 0..11,
    where the table read is defined. *)
Theorem rtcTimeToDateTime_fields_in_range (dt : dateTime_t) (t : rtcTime_t) :
  seconds_fit_int32 t ->
  (1 <= month (rtcTimeToDateTime dt t) <= 12 /\
   1 <= day (rtcTimeToDateTime dt t) <= 31 /\
   0 <= hours (rtcTimeToDateTime dt t) <= 23 /\
   0 <= minutes (rtcTimeToDateTime dt t) <= 59 /\
   0 <= seconds (rtcTimeToDateTime dt t) <= 59 /\
   0 <= millis (rtcTimeToDateTime dt t) <= 999) /\
  (forall unixTime : Z,
      let row := scan_down (fun year => days_at year 0 <=? unixTime) 3 in
      let col := scan_down (fun month => days_at row month <=? unixTime) 11 in
      (row <= 3)%nat /\ (col <= 11)%nat /\
      exists d, days_get (Z.of_nat row) (Z.of_nat col) = Some d).
Proof.
  intros H. split.
  - rewrite (rtcTimeToDateTime_calendar_of dt t H).
    pose proof (calendar_of_bounds t H) as B. cbv zeta in B. tauto.
  - intros unixTime row col.
    destruct (scan_indices_in_table unixTime) as (Hy & Hm & Hg).
    split; [exact Hy|]. split; [exact Hm|]. eexists. exact Hg.
Qed.

Lemma rtcTimeToDateTime_fields_in_range_witness :
  seconds_fit_int32 1749990645123 /\
  1 <= month (rtcTimeToDateTime stale 1749990645123) <= 12.
Proof.
  assert (H : seconds_fit_int32 1749990645123).
  { unfold seconds_fit_int32, MILLIS_PER_SECOND. split; [lia|]. vm_compute. discriminate. }
  split; [exact H|].
  exact (proj1 (proj1 (rtcTimeToDateTime_fields_in_range stale 1749990645123 H))).
Defined.

(** ** Epoch to calendar and back *)

Lemma dateTimeToRtcTime_calendar_of (t : rtcTime_t) :
  seconds_fit_int32 t -> dateTimeToRtcTime (calendar_of t) = Some t.
Proof.
  intros H. pose proof (calendar_of_bounds t H) as B. cbv zeta in B.
  destruct H as [H0 H1]. unfold MILLIS_PER_SECOND in H1.
  revert B. unfold calendar_of. cbv zeta.
  unfold dateTimeToRtcTime, unixTimeOf, UNIX_REFERENCE_YEAR.
  cbn [year month day hours minutes seconds millis].
  change (365 * 4 + 1) with 1461.
  set (secs := t / 1000) in *.
  set (dayno := secs / 60 / 60 / 24).
  pose proof (Z.mod_pos_bound dayno 1461 ltac:(lia)) as Hr.
  set (r := dayno mod 1461) in *.
  set (y := scan_year r). set (m := scan_month y r).
  destruct (scan_indices_in_table r) as (Hy & Hmo & Hg). fold y in Hy. fold y m in Hmo, Hg.
  intros B.
  set (q := dayno / 1461) in *.
  replace (q * 4 + Z.of_nat y + 1970 - 1970) with (q * 4 + Z.of_nat y) by lia.
  replace (Z.of_nat m + 1 - 1) with (Z.of_nat m) by lia.
  replace (r - days_at y m + 1 - 1) with (r - days_at y m) by lia.
  rewrite (u32_small (q * 4 + Z.of_nat y)) by lia.
  rewrite (u32_small (Z.of_nat m)) by lia.
  rewrite (u32_small (r - days_at y m)) by lia.
  rewrite !u32_small by lia.
  assert (E4 : (q * 4 + Z.of_nat y) mod 4 = Z.of_nat y).
  { rewrite Z.add_comm, Z.mod_add by lia. apply Z.mod_small. lia. }
  assert (D4 : (q * 4 + Z.of_nat y) / 4 = q).
  { rewrite Z.add_comm, Z.div_add by lia. rewrite Z.div_small; lia. }
  rewrite E4, D4, Hg.
  assert (Ed : q * 1461 + days_at y m + (r - days_at y m) = dayno).
  { subst q r. pose proof (Z.div_mod dayno 1461 ltac:(lia)). lia. }
  rewrite Ed.
  assert (Es : ((dayno * 24 + secs / 60 / 60 mod 24) * 60 + secs / 60 mod 60) * 60
               + secs mod 60 = secs).
  { assert (0 <= secs) by (subst secs; apply Z.div_pos; lia).
    subst dayno. clearbody secs. Z.div_mod_to_equations. lia. }
  rewrite Es.
  assert (0 <= secs) by (subst secs; apply Z.div_pos; lia).
  rewrite (u32_small secs), (s32_small secs) by lia.
  unfold rtcTimeMake, MILLIS_PER_SECOND.
  rewrite (s32_small secs), (u16_small (t mod 1000)) by lia.
  assert (Et : secs * 1000 + t mod 1000 = t).
  { subst secs. pose proof (Z.div_mod t 1000 ltac:(lia)). lia. }
  rewrite Et. rewrite s64_small by lia. reflexivity.
Qed.

(** C1 (amended).  For every epoch scalar [t >= 0] whose count of whole
    seconds fits a signed 32-bit integer ([t < 2^31 * 1000]), converting
    [t] to calendar fields with [rtcTimeToDateTime] and back with
    [dateTimeToRtcTime] yields [t] exactly. *)
Theorem epoch_calendar_epoch (dt : dateTime_t) (t : rtcTime_t) :
  seconds_fit_int32 t -> dateTimeToRtcTime (rtcTimeToDateTime dt t) = Some t.
Proof.
  intros H. rewrite (rtcTimeToDateTime_calendar_of dt t H).
  apply dateTimeToRtcTime_calendar_of. exact H.
Qed.

Lemma epoch_calendar_epoch_witness :
  seconds_fit_int32 1749990645123 /\
  dateTimeToRtcTime (rtcTimeToDateTime stale 1749990645123) = Some 1749990645123.
Proof.
  assert (H : seconds_fit_int32 1749990645123).
  { unfold seconds_fit_int32, MILLIS_PER_SECOND. split; [lia|]. vm_compute. discriminate. }
  split; [exact H|]. exact (epoch_calendar_epoch stale 1749990645123 H).
Defined.

(** C1 as stated fails for epochs whose seconds exceed [int32_t].  The
    non-negative scalar [2^32 * 1000] has a count of seconds that the
    conversion to [int32_t] at the head of [rtcTimeToDateTime] turns into
    0: its calendar is 1970-01-01T00:00:00.000 and the way back gives 0.
    The first such scalar, [2^31 * 1000], does not come back either. *)
Lemma epoch_round_trip_fails_past_int32 :
  0 <= 4294967296000 /\
  rtcTimeToDateTime stale 4294967296000 = mkDateTime 1970 1 1 0 0 0 0 /\
  dateTimeToRtcTime (rtcTimeToDateTime stale 4294967296000) = Some 0 /\
  dateTimeToRtcTime (rtcTimeToDateTime stale 4294967296000) <> Some 4294967296000 /\
  dateTimeToRtcTime (rtcTimeToDateTime stale 2147483648000) <> Some 2147483648000.
Proof.
  split; [lia|]. split; [vm_compute; reflexivity|]. split; [vm_compute; reflexivity|].
  split; vm_compute; discriminate.
Qed.

(** ** Calendar to epoch and back *)

Lemma calendar_of_compose (q r h mi s ms : Z) :
  0 <= q -> 0 <= r < 1461 -> 0 <= h < 24 -> 0 <= mi < 60 -> 0 <= s < 60 ->
  0 <= ms < 1000 ->
  calendar_of ((((((q * 1461 + r) * 24 + h) * 60 + mi) * 60 + s)) * 1000 + ms) =
  mkDateTime (q * 4 + Z.of_nat (scan_year r) + 1970)
             (Z.of_nat (scan_month (scan_year r) r) + 1)
             (r - days_at (scan_year r) (scan_month (scan_year r) r) + 1)
             h mi s ms.
Proof.
  intros Hq Hr Hh Hmi Hs Hms. unfold calendar_of. cbv zeta.
  set (dayno := q * 1461 + r).
  set (X := ((dayno * 24 + h) * 60 + mi) * 60 + s).
  assert (E1 : (X * 1000 + ms) / 1000 = X)
    by (symmetry; apply Z.div_unique with ms; lia).
  assert (E2 : (X * 1000 + ms) mod 1000 = ms)
    by (symmetry; apply Z.mod_unique with X; lia).
  assert (E3 : X / 60 = (dayno * 24 + h) * 60 + mi)
    by (symmetry; apply Z.div_unique with s; subst X; lia).
  assert (E4 : X mod 60 = s)
    by (symmetry; apply Z.mod_unique with ((dayno * 24 + h) * 60 + mi); subst X; lia).
  assert (E5 : ((dayno * 24 + h) * 60 + mi) / 60 = dayno * 24 + h)
    by (symmetry; apply Z.div_unique with mi; lia).
  assert (E6 : ((dayno * 24 + h) * 60 + mi) mod 60 = mi)
    by (symmetry; apply Z.mod_unique with (dayno * 24 + h); lia).
  assert (E7 : (dayno * 24 + h) / 24 = dayno)
    by (symmetry; apply Z.div_unique with h; lia).
  assert (E8 : (dayno * 24 + h) mod 24 = h)
    by (symmetry; apply Z.mod_unique with dayno; lia).
  assert (E9 : dayno / 1461 = q)
    by (symmetry; apply Z.div_unique with r; subst dayno; lia).
  assert (E10 : dayno mod 1461 = r)
    by (symmetry; apply Z.mod_unique with q; subst dayno; lia).
  rewrite E1, E2, E3, E4, E5, E6, E7, E8, E9, E10. reflexivity.
Qed.

Lemma real_day_le_common (Y M D : Z) :
  D <= days_in_month Y M -> ~ (M = 2 /\ D = 29) -> D <= common_month_length M.
Proof.
  unfold days_in_month, common_month_length. intros HD HF.
  destruct (Z.eqb_spec M 2) as [E|E].
  - destruct (is_leap_year Y); lia.
  - exact HD.
Qed.

Lemma table_covers_common_months :
  forallb (fun row =>
             forallb (fun m => common_month_length (Z.of_nat m + 1)
                               <=? table_month_length row m)
                     (seq 0 12))
          (seq 0 4) = true.
Proof. vm_compute. reflexivity. Qed.

(** A real day of a month other than February 29 lies inside the table
    cell of that month, whichever row the year selects. *)
Lemma real_day_in_cell (Y M D : Z) (row : nat) :
  1 <= M <= 12 -> 1 <= D <= days_in_month Y M -> ~ (M = 2 /\ D = 29) ->
  (row <= 3)%nat ->
  0 <= D - 1 < table_month_length row (Z.to_nat (M - 1)).
Proof.
  intros HM HD HF Hrow.
  pose proof (real_day_le_common Y M D (proj2 HD) HF) as HC.
  pose proof (proj1 (forallb_forall _ _) table_covers_common_months row) as Tr.
  assert (Ir : In row (seq 0 4)) by (apply in_seq; lia).
  pose proof (proj1 (forallb_forall _ _) (Tr Ir) (Z.to_nat (M - 1))) as Tm.
  assert (Im : In (Z.to_nat (M - 1)) (seq 0 12)) by (apply in_seq; lia).
  specialize (Tm Im). apply Z.leb_le in Tm.
  replace (Z.of_nat (Z.to_nat (M - 1)) + 1) with M in Tm by lia.
  lia.
Qed.

Lemma days_in_month_le_31 (Y M : Z) : days_in_month Y M <= 31.
Proof.
  unfold days_in_month.
  destruct (M =? 2); [destruct (is_leap_year Y); lia|].
  destruct ((M =? 4) || (M =? 6) || (M =? 9) || (M =? 11)); lia.
Qed.

Lemma dateTimeToRtcTime_in_table (dt : dateTime_t) (row col : nat) :
  (row <= 3)%nat -> (col <= 11)%nat ->
  0 <= year dt - 1970 < 4294967296 ->
  (year dt - 1970) mod 4 = Z.of_nat row ->
  month dt - 1 = Z.of_nat col ->
  dateTimeToRtcTime dt =
  Some (rtcTimeMake (s32 (u32 (unixTimeOf dt (days_at row col)))) (millis dt)).
Proof.
  intros Hr Hc Hy Er Ec. unfold dateTimeToRtcTime, UNIX_REFERENCE_YEAR.
  rewrite (u32_small (year dt - 1970)) by lia.
  rewrite Ec, (u32_small (Z.of_nat col)) by lia.
  rewrite Er, (days_get_in_table row col Hr Hc). reflexivity.
Qed.

(** C2 (amended).  For every valid calendar record (year >= 1970, month
    1-12, day a real day of that month, hour 0-23, minute 0-59, second
    0-59, millisecond 0-999) that is not a February 29 and lies before
    2038-01-19T03:14:08, [dateTimeToRtcTime] returns an epoch scalar and
    [rtcTimeToDateTime] maps that scalar back to the same fields. *)
Theorem calendar_epoch_calendar (local dt : dateTime_t) :
  valid_dateTime dt -> ~ (month dt = 2 /\ day dt = 29) -> before_rollover dt ->
  exists t, dateTimeToRtcTime dt = Some t /\ rtcTimeToDateTime local t = dt.
Proof.
  destruct dt as [Y M D h mi s ms].
  unfold valid_dateTime, before_rollover, UNIX_REFERENCE_YEAR.
  cbn [year month day hours minutes seconds millis].
  intros (HY & HM & HD & Hh & Hmi & Hs & Hms) HF HB.
  assert (HY2 : Y <= 2038) by lia.
  pose proof (days_in_month_le_31 Y M) as HD31.
  pose proof (Z.div_mod (Y - 1970) 4 ltac:(lia)) as Eyy.
  pose proof (Z.mod_pos_bound (Y - 1970) 4 ltac:(lia)) as Hrow.
  set (q := (Y - 1970) / 4) in *.
  set (rn := Z.to_nat ((Y - 1970) mod 4)).
  set (cn := Z.to_nat (M - 1)).
  assert (Ern : (Y - 1970) mod 4 = Z.of_nat rn) by (subst rn; lia).
  assert (Ecn : M - 1 = Z.of_nat cn) by (subst cn; lia).
  assert (Hrn : (rn <= 3)%nat) by lia.
  assert (Hcn : (cn <= 11)%nat) by lia.
  pose proof (real_day_in_cell Y M D rn HM HD HF Hrn) as Hcell. fold cn in Hcell.
  destruct (cell_is_found rn cn (D - 1) Hrn Hcn Hcell) as (Sy & Sm & Hr).
  set (d := days_at rn cn) in *.
  set (r := d + (D - 1)) in *.
  set (X := (((q * 1461 + r) * 24 + h) * 60 + mi) * 60 + s).
  assert (HX : 0 <= X < 2147483648).
  { destruct HB as [HB | (EY & EM & HB)].
    - assert (q <= 16) by lia. subst X. lia.
    - assert (Eq : q = 17) by lia.
      assert (Ed : d = 0).
      { subst d rn cn. rewrite EY, EM. reflexivity. }
      subst X r. rewrite Eq, Ed. lia. }
  rewrite (dateTimeToRtcTime_in_table _ rn cn Hrn Hcn); cbn [year month]; try lia.
  fold d. unfold unixTimeOf, UNIX_REFERENCE_YEAR.
  cbn [year month day hours minutes seconds millis].
  change (365 * 4 + 1) with 1461.
  rewrite (u32_small s), (u32_small mi), (u32_small h), (u32_small (D - 1)),
          (u32_small (Y - 1970)) by lia.
  fold q.
  replace ((((q * 1461 + d + (D - 1)) * 24 + h) * 60 + mi) * 60 + s) with X
    by (subst X r; lia).
  rewrite (u32_small X), (s32_small X) by lia.
  unfold rtcTimeMake, MILLIS_PER_SECOND.
  rewrite (s32_small X), (u16_small ms), s64_small by lia.
  eexists. split; [reflexivity|].
  assert (Hfit : seconds_fit_int32 (X * 1000 + ms)).
  { unfold seconds_fit_int32, MILLIS_PER_SECOND. split; [lia|].
    assert (E : (X * 1000 + ms) / 1000 = X)
      by (symmetry; apply Z.div_unique with ms; lia).
    rewrite E. lia. }
  rewrite (rtcTimeToDateTime_calendar_of local _ Hfit).
  subst X. rewrite calendar_of_compose by lia.
  rewrite Sy, Sm. fold d. f_equal; lia.
Qed.

Lemma calendar_epoch_calendar_witness :
  valid_dateTime (mkDateTime 2024 1 5 13 7 2 123) /\
  before_rollover (mkDateTime 2024 1 5 13 7 2 123) /\
  exists t, dateTimeToRtcTime (mkDateTime 2024 1 5 13 7 2 123) = Some t /\
            rtcTimeToDateTime stale t = mkDateTime 2024 1 5 13 7 2 123.
Proof.
  assert (V : valid_dateTime (mkDateTime 2024 1 5 13 7 2 123)).
  { unfold valid_dateTime, UNIX_REFERENCE_YEAR.
    cbn [year month day hours minutes seconds millis].
    change (days_in_month 2024 1) with 31. lia. }
  assert (B : before_rollover (mkDateTime 2024 1 5 13 7 2 123)).
  { unfold before_rollover. cbn [year month day hours minutes seconds]. lia. }
  split; [exact V|]. split; [exact B|].
  apply (calendar_epoch_calendar stale (mkDateTime 2024 1 5 13 7 2 123) V); [|exact B].
  cbn [month day]. lia.
Defined.

(** C2 as stated fails for valid records past the range of [int32_t].
    For 2106-02-06T06:28:16.000 the count of seconds is [2^32], which the
    [unsigned int] arithmetic of [dateTimeToRtcTime] reduces to 0: the
    epoch scalar is 0 and converts back to 1970-01-01T00:00:00.000.  The
    first record past the range, 2038-01-19T03:14:08.000, gets a negative
    scalar and does not come back either. *)
Lemma calendar_round_trip_fails_past_int32 :
  valid_dateTime (mkDateTime 2106 2 6 6 28 16 0) /\
  dateTimeToRtcTime (mkDateTime 2106 2 6 6 28 16 0) = Some 0 /\
  rtcTimeToDateTime stale 0 = mkDateTime 1970 1 1 0 0 0 0 /\
  valid_dateTime (mkDateTime 2038 1 19 3 14 8 0) /\
  dateTimeToRtcTime (mkDateTime 2038 1 19 3 14 8 0) = Some (-2147483648000) /\
  rtcTimeToDateTime stale (-2147483648000) <> mkDateTime 2038 1 19 3 14 8 0.
Proof.
  split.
  { unfold valid_dateTime, UNIX_REFERENCE_YEAR.
    cbn [year month day hours minutes seconds millis].
    change (days_in_month 2106 2) with 28. lia. }
  split; [vm_compute; reflexivity|].
  split; [vm_compute; reflexivity|].
  split.
  { unfold valid_dateTime, UNIX_REFERENCE_YEAR.
    cbn [year month day hours minutes seconds millis].
    change (days_in_month 2038 1) with 31. lia. }
  split; [vm_compute; reflexivity|].
  vm_compute. discriminate.
Qed.

(** ** The leap day *)

(** C3.  The record 1972-02-29T00:00:00.000 is a valid date (1972 is a
    leap year), but the table gives 29 days to February in row 0 (1970,
    1974, ...) and 28 in row 2 (1972, 1976, ...): [dateTimeToRtcTime]
    maps the record to day 790, [rtcTimeToDateTime] maps that scalar to
    1972-03-01 and the scalar of the following day to 1972-03-02.  Day
    789, which is 1972-02-29 in Unix time, is converted to 1972-02-28,
    and day 59 to 1970-02-29, a day that 1970 does not have. *)
Theorem leap_day_1972_lost :
  valid_dateTime (mkDateTime 1972 2 29 0 0 0 0) /\
  (table_month_length 0 1 = 29 /\ table_month_length 2 1 = 28) /\
  dateTimeToRtcTime (mkDateTime 1972 2 29 0 0 0 0) = Some (790 * 86400000) /\
  rtcTimeToDateTime stale (790 * 86400000) = mkDateTime 1972 3 1 0 0 0 0 /\
  rtcTimeToDateTime stale (791 * 86400000) = mkDateTime 1972 3 2 0 0 0 0 /\
  rtcTimeToDateTime stale (789 * 86400000) = mkDateTime 1972 2 28 0 0 0 0 /\
  rtcTimeToDateTime stale (59 * 86400000) = mkDateTime 1970 2 29 0 0 0 0 /\
  days_in_month 1970 2 = 28.
Proof.
  split.
  { unfold valid_dateTime, UNIX_REFERENCE_YEAR.
    cbn [year month day hours minutes seconds millis].
    change (days_in_month 1972 2) with 29. lia. }
  repeat split; vm_compute; reflexivity.
Qed.

(** ** RTC state *)

Lemma rtcTimeToDateTime_overwrites (dt dt' : dateTime_t) (t : rtcTime_t) :
  rtcTimeToDateTime dt t = rtcTimeToDateTime dt' t.
Proof. reflexivity. Qed.

Lemma rtcSet_has_time (now t started : Z) :
  is_uptime now -> is_rtcTime t ->
  rtcHasTime (fst (rtcSet now t started)) = negb (t =? now).
Proof.
  unfold is_uptime, is_rtcTime. intros Hn Ht.
  unfold rtcSet, rtcHasTime. cbn [fst]. rewrite (u32_small now) by lia.
  f_equal.
  assert (R : -18446744073709551616 < t - now < 18446744073709551616) by lia.
  pose proof (s64_zero_iff (t - now) R) as Z0.
  destruct (Z.eqb_spec t now) as [E|E].
  - apply Z.eqb_eq. apply Z0. lia.
  - apply Z.eqb_neq. intros C. apply Z0 in C. lia.
Qed.

Lemma rtcRun_keeps_time (evs : list (Z * rtcOp)) (started : rtcState) :
  rtcHasTime started = true -> Forall set_off_uptime evs ->
  rtcHasTime (rtcRun evs started) = true.
Proof.
  unfold rtcRun. revert started.
  induction evs as [|[now op] evs IH]; intros started Hs Hall; [exact Hs|].
  inversion Hall as [|ev evs' Hev Hevs]; subst.
  cbn [fold_left]. apply IH; [|exact Hevs].
  unfold rtcStep. cbn [fst snd]. destruct op as [t|]; [|exact Hs].
  unfold set_off_uptime in Hev. cbn [fst snd] in Hev. destruct Hev as (Hn & Ht & Hne).
  rewrite (rtcSet_has_time now t started Hn Ht).
  apply negb_true_iff. apply Z.eqb_neq. exact Hne.
Qed.

(** C4 (amended).  [rtcHasTime] is false in the initial state; it is true
    immediately after an [rtcSet] call whose epoch differs from the uptime
    at the call; [rtcGet] leaves the state as it is; and once [rtcHasTime]
    is true it stays true over every sequence of [rtcSet] and [rtcGet]
    calls in which each [rtcSet] is given an epoch different from the
    uptime at that call. *)
Theorem rtcHasTime_lifecycle :
  rtcHasTime started_init = false /\
  (forall now t started,
      is_uptime now -> is_rtcTime t -> t <> now ->
      rtcHasTime (fst (rtcSet now t started)) = true) /\
  (forall now started, rtcStep started (now, OpGet) = started) /\
  (forall evs started,
      rtcHasTime started = true -> Forall set_off_uptime evs ->
      rtcHasTime (rtcRun evs started) = true).
Proof.
  split; [reflexivity|]. split; [|split].
  - intros now t started Hn Ht Hne. rewrite (rtcSet_has_time now t started Hn Ht).
    apply negb_true_iff. apply Z.eqb_neq. exact Hne.
  - reflexivity.
  - exact rtcRun_keeps_time.
Qed.

Lemma rtcHasTime_lifecycle_witness :
  rtcHasTime (fst (rtcSet 1000 1700000000000 started_init)) = true /\
  rtcHasTime (rtcRun [(2000, OpGet); (3000, OpSet 1700000005000); (4000, OpGet)]
                     (fst (rtcSet 1000 1700000000000 started_init))) = true.
Proof.
  destruct rtcHasTime_lifecycle as (_ & Hset & _ & Hrun).
  assert (H1 : rtcHasTime (fst (rtcSet 1000 1700000000000 started_init)) = true).
  { apply Hset; unfold is_uptime, is_rtcTime; lia. }
  split; [exact H1|].
  apply Hrun; [exact H1|].
  repeat constructor; unfold set_off_uptime, is_uptime, is_rtcTime; cbn [fst snd]; lia.
Defined.

(** C4 as stated fails when [rtcSet] is given the current uptime as the
    epoch: the stored value is then 0, the value that marks the unset
    state, both on a first call and after the time had been set. *)
Lemma rtcSet_at_uptime_reads_unset :
  rtcHasTime (fst (rtcSet 5000 5000 started_init)) = false /\
  rtcHasTime (rtcRun [(1000, OpSet 1700000000000)] started_init) = true /\
  rtcHasTime (rtcRun [(1000, OpSet 1700000000000); (2000, OpGet); (3000, OpSet 3000)]
                     started_init) = false.
Proof. repeat split; vm_compute; reflexivity. Qed.

(** C5 (amended).  [rtcSet(E)] at uptime [u0] returns true and stores
    [E - u0].  When [E] differs from [u0], an [rtcGet] at a later uptime
    [u1 >= u0] succeeds and returns [E + (u1 - u0)], which is at least
    [E] and at most [E] plus the elapsed uptime; when [E] equals [u0] the
    stored value is 0 and [rtcGet] fails. *)
Theorem rtcSet_then_rtcGet (u0 u1 E : Z) (started : rtcState) :
  is_uptime u0 -> is_uptime u1 -> u0 <= u1 ->
  is_rtcTime (E - u0) -> is_rtcTime (E + (u1 - u0)) ->
  rtcSet u0 E started = (E - u0, true) /\
  (E <> u0 ->
   exists v, rtcGet u1 (fst (rtcSet u0 E started)) = Some v /\
             v = E + (u1 - u0) /\ E <= v <= E + (u1 - u0)) /\
  (E = u0 -> rtcGet u1 (fst (rtcSet u0 E started)) = None).
Proof.
  unfold is_uptime, is_rtcTime. intros H0 H1 Hle Hlo Hhi.
  assert (Eset : rtcSet u0 E started = (E - u0, true)).
  { unfold rtcSet. rewrite (u32_small u0), s64_small by lia. reflexivity. }
  rewrite Eset. cbn [fst]. split; [reflexivity|]. split.
  - intros Hne. exists (E + (u1 - u0)).
    unfold rtcGet, rtcHasTime.
    destruct (Z.eqb_spec (E - u0) 0) as [C|C]; [lia|]. cbn [negb].
    rewrite (u32_small u1), s64_small by lia.
    split; [apply f_equal; lia|]. split; [reflexivity|lia].
  - intros ->. rewrite Z.sub_diag. reflexivity.
Qed.

Lemma rtcSet_then_rtcGet_witness :
  rtcSet 1000 1700000000000 started_init = (1699999999000, true) /\
  exists v, rtcGet 4000 (fst (rtcSet 1000 1700000000000 started_init)) = Some v /\
            v = 1700000000000 + (4000 - 1000) /\
            1700000000000 <= v <= 1700000000000 + (4000 - 1000).
Proof.
  assert (U0 : is_uptime 1000) by (unfold is_uptime; lia).
  assert (U1 : is_uptime 4000) by (unfold is_uptime; lia).
  assert (L : is_rtcTime (1700000000000 - 1000)) by (unfold is_rtcTime; lia).
  assert (R : is_rtcTime (1700000000000 + (4000 - 1000))) by (unfold is_rtcTime; lia).
  destruct (rtcSet_then_rtcGet 1000 4000 1700000000000 started_init U0 U1 ltac:(lia) L R)
    as (Hs & Hg & _).
  split; [exact Hs|]. apply Hg. lia.
Defined.

(** C5 as stated fails when the epoch given to [rtcSet] equals the uptime
    at the call: the later [rtcGet] returns false. *)
Lemma rtcGet_fails_after_rtcSet_at_uptime :
  rtcSet 5000 5000 started_init = (0, true) /\
  rtcGet 6000 (fst (rtcSet 5000 5000 started_init)) = None.
Proof. split; vm_compute; reflexivity. Qed.

(** C6.  When [rtcGet] succeeds with [t], [rtcGetDateTime] returns true
    and the output record holds the calendar fields of [t], whatever it
    held before; when [rtcGet] fails, [rtcGetDateTime] returns false and
    the output record holds year 0, month 1, day 1 and zero hours,
    minutes, seconds and millis. *)
Theorem rtcGetDateTime_result (dt : dateTime_t) (now : Z) (started : rtcState) :
  (forall t, rtcGet now started = Some t ->
             forall dt', rtcGetDateTime dt now started = (rtcTimeToDateTime dt' t, true)) /\
  (rtcGet now started = None ->
   rtcGetDateTime dt now started = (mkDateTime 0 1 1 0 0 0 0, false)).
Proof.
  unfold rtcGetDateTime. split.
  - intros t Ht dt'. rewrite Ht.
    rewrite (rtcTimeToDateTime_overwrites dt dt'). reflexivity.
  - intros Hn. rewrite Hn. reflexivity.
Qed.

Lemma rtcGetDateTime_result_witness :
  rtcGetDateTime stale 4000 1749990641000 = (mkDateTime 2025 6 15 12 30 45 0, true) /\
  rtcGetDateTime stale 4000 started_init = (mkDateTime 0 1 1 0 0 0 0, false).
Proof.
  split.
  - rewrite (proj1 (rtcGetDateTime_result stale 4000 1749990641000) 1749990645000
                   ltac:(vm_compute; reflexivity) stale).
    vm_compute. reflexivity.
  - apply (proj2 (rtcGetDateTime_result stale 4000 started_init)).
    vm_compute. reflexivity.
Defined.

(** ** Timestamp formatter *)

Lemma append_assoc (a b c : string) : ((a ++ b) ++ c = a ++ b ++ c)%string.
Proof. induction a as [|ch a IH]; cbn; [reflexivity | rewrite IH; reflexivity]. Qed.

Lemma append_empty_r (a : string) : (a ++ EmptyString)%string = a.
Proof. induction a as [|ch a IH]; cbn; [reflexivity | rewrite IH; reflexivity]. Qed.

Lemma append_cons (ch : ascii) (a b : string) :
  (String ch a ++ b)%string = String ch (a ++ b).
Proof. reflexivity. Qed.

Lemma render_parts (dt : dateTime_t) (tz_hours tz_minutes : Z) :
  render dt tz_hours tz_minutes = (date_part dt ++ tz_suffix tz_hours tz_minutes)%string.
Proof.
  unfold date_part. rewrite !append_assoc. cbn [append].
  rewrite <- (append_empty_r (tz_suffix tz_hours tz_minutes)).
  unfold tz_suffix. rewrite !append_cons, !append_assoc.
  destruct (0 <=? tz_hours) eqn:E; unfold render; rewrite E; reflexivity.
Qed.

Lemma dateTimeToRtcTime_defined (dt : dateTime_t) :
  1 <= month dt <= 12 -> exists t, dateTimeToRtcTime dt = Some t.
Proof.
  intros Hm. unfold dateTimeToRtcTime.
  rewrite (u32_small (month dt - 1)) by lia.
  set (y := u32 (year dt - UNIX_REFERENCE_YEAR)).
  pose proof (Z.mod_pos_bound y 4 ltac:(lia)) as Hr.
  pose proof (days_get_in_table (Z.to_nat (y mod 4)) (Z.to_nat (month dt - 1))
                                ltac:(lia) ltac:(lia)) as G.
  rewrite !Z2Nat.id in G by lia. rewrite G. eexists. reflexivity.
Qed.

(** With a non-zero offset the text is the date part of the shifted
    record followed by the suffix computed from the offset alone. *)
Lemma dateTimeFormat_shifted (local dt : dateTime_t) (offset : Z) :
  offset <> 0 -> 1 <= month dt <= 12 ->
  exists shifted,
    dateTimeFormat local dt offset =
    Some (date_part shifted ++ tz_suffix (offset ÷ 60) (ABS (Z.rem offset 60)))%string.
Proof.
  intros Ho Hm. unfold dateTimeFormat.
  destruct (Z.eqb_spec offset 0) as [E|_]; [contradiction|]. cbn [negb].
  destruct (dateTimeToRtcTime_defined dt Hm) as [t Ht]. rewrite Ht.
  eexists. rewrite render_parts. reflexivity.
Qed.

(** C7.  [dateTimeFormatUTC] renders the seven fields of its argument as
    they are, in the fixed layout, followed by the suffix [+00:00]; the
    calendar of epoch 0 is rendered as [1970-01-01T00:00:00.000+00:00]. *)
Theorem dateTimeFormatUTC_renders_fields (local dt : dateTime_t) :
  dateTimeFormatUTC local dt = Some (date_part dt ++ "+00:00")%string /\
  dateTimeFormatUTC local (rtcTimeToDateTime stale 0)
  = Some "1970-01-01T00:00:00.000+00:00"%string.
Proof.
  split.
  - unfold dateTimeFormatUTC, dateTimeFormat. cbn [Z.eqb negb].
    rewrite render_parts. reflexivity.
  - vm_compute. reflexivity.
Qed.

(** C8.  With [tz_offset = 330], [dateTimeFormatLocal] renders the fields
    of 1970-01-01T00:00:00.000 as [1970-01-01T05:30:00.000+05:30]; with
    [tz_offset = -300] the text it renders ends in [-05:00]. *)
Theorem dateTimeFormatLocal_fixed_offsets (local : dateTime_t) :
  dateTimeFormatLocal (mkTimeConfig 330) local (mkDateTime 1970 1 1 0 0 0 0)
  = Some "1970-01-01T05:30:00.000+05:30"%string /\
  (forall dt, 1 <= month dt <= 12 ->
     exists body,
       dateTimeFormatLocal (mkTimeConfig (-300)) local dt = Some (body ++ "-05:00")%string).
Proof.
  split; [vm_compute; reflexivity|].
  intros dt Hm. unfold dateTimeFormatLocal. cbn [tz_offset].
  destruct (dateTimeFormat_shifted local dt (-300) ltac:(lia) Hm) as [shifted Hs].
  exists (date_part shifted). rewrite Hs. reflexivity.
Qed.

Lemma dateTimeFormatLocal_fixed_offsets_witness :
  exists body,
    dateTimeFormatLocal (mkTimeConfig (-300)) stale (mkDateTime 1970 1 1 12 0 0 0)
    = Some (body ++ "-05:00")%string.
Proof.
  apply (proj2 (dateTimeFormatLocal_fixed_offsets stale) (mkDateTime 1970 1 1 12 0 0 0)).
  cbn [month]. lia.
Defined.

(** C9.  For every offset that is negative and of magnitude under 60
    minutes, [offset / 60] is 0 by truncation toward zero, and the text
    [dateTimeFormat] renders ends in the sign [+], hours [00] and the
    magnitude of the offset as minutes; for -30 the suffix is [+00:30]. *)
Theorem negative_sub_hour_offset_renders_plus (local dt : dateTime_t) (offset : Z) :
  -60 < offset < 0 -> 1 <= month dt <= 12 ->
  offset ÷ 60 = 0 /\
  exists body,
    dateTimeFormat local dt offset
    = Some (body ++ "+00:" ++ number true 2 (- offset))%string.
Proof.
  intros Ho Hm.
  assert (Q : offset ÷ 60 = 0).
  { replace offset with (- (- offset)) by lia.
    rewrite Z.quot_opp_l by lia. rewrite Z.quot_small by lia. reflexivity. }
  assert (R : Z.rem offset 60 = offset).
  { replace offset with (- (- offset)) at 1 by lia.
    rewrite Z.rem_opp_l by lia. rewrite Z.rem_small by lia. lia. }
  split; [exact Q|].
  destruct (dateTimeFormat_shifted local dt offset ltac:(lia) Hm) as [shifted Hs].
  exists (date_part shifted). rewrite Hs, Q, R.
  unfold tz_suffix, ABS. rewrite (Z.abs_neq offset) by lia.
  rewrite (s32_small (- offset)) by lia. reflexivity.
Qed.

Lemma negative_sub_hour_offset_renders_plus_witness :
  exists body,
    dateTimeFormat stale (mkDateTime 1970 1 1 12 0 0 0) (-30)
    = Some (body ++ "+00:30")%string.
Proof.
  apply (proj2 (negative_sub_hour_offset_renders_plus
                  stale (mkDateTime 1970 1 1 12 0 0 0) (-30) ltac:(lia)
                  ltac:(cbn [month]; lia))).
Defined.

(** * Further properties of the code *)

(** ** Truncating division on a non-positive dividend *)

Lemma quot_rem_nonpos (a b : Z) :
  a <= 0 -> 0 < b -> a ÷ b = - ((- a) / b) /\ Z.rem a b = - ((- a) mod b).
Proof.
  intros Ha Hb.
  replace a with (- (- a)) at 1 3 by lia.
  rewrite Z.quot_opp_l, Z.rem_opp_l by lia.
  rewrite Z.quot_div_nonneg, Z.rem_mod_nonneg by lia. split; reflexivity.
Qed.

Lemma quot_nonpos_bounds (a b : Z) :
  a <= 0 -> 0 < b -> a <= a ÷ b <= 0 /\ - b < Z.rem a b <= 0.
Proof.
  intros Ha Hb. destruct (quot_rem_nonpos a b Ha Hb) as [Q R]. rewrite Q, R.
  pose proof (Z.mod_pos_bound (- a) b Hb).
  pose proof (Z.div_pos (- a) b ltac:(lia) Hb).
  pose proof (Z.div_mod (- a) b ltac:(lia)).
  split; [|lia]. split; [nia|lia].
Qed.

(** ** The epoch scalar and its two components *)

(** X1.  For a non-negative count of seconds and any [uint16_t] count of
    milliseconds, the scalar built by [rtcTimeMake] is read back by
    [rtcTimeGetSeconds] as the seconds plus the whole seconds contained
    in the milliseconds, and by [rtcTimeGetMillis] as the rest; with
    fewer than 1000 milliseconds both components come back unchanged. *)
Theorem rtcTimeMake_components (secs ms : Z) :
  0 <= secs -> 0 <= ms < 65536 -> secs + ms / 1000 < 2147483648 ->
  rtcTimeGetSeconds (rtcTimeMake secs ms) = secs + ms / 1000 /\
  rtcTimeGetMillis (rtcTimeMake secs ms) = ms mod 1000 /\
  (ms < 1000 ->
   rtcTimeGetSeconds (rtcTimeMake secs ms) = secs /\
   rtcTimeGetMillis (rtcTimeMake secs ms) = ms).
Proof.
  intros Hs Hms Hfit.
  assert (Hq : 0 <= ms / 1000) by (apply Z.div_pos; lia).
  pose proof (Z.div_mod ms 1000 ltac:(lia)) as Dm.
  pose proof (Z.mod_pos_bound ms 1000 ltac:(lia)) as Bm.
  unfold rtcTimeGetSeconds, rtcTimeGetMillis, rtcTimeMake, MILLIS_PER_SECOND.
  rewrite (s32_small secs), (u16_small ms), s64_small by lia.
  rewrite Z.quot_div_nonneg, Z.rem_mod_nonneg by lia.
  assert (E1 : (secs * 1000 + ms) / 1000 = secs + ms / 1000)
    by (symmetry; apply Z.div_unique with (ms mod 1000); lia).
  assert (E2 : (secs * 1000 + ms) mod 1000 = ms mod 1000)
    by (symmetry; apply Z.mod_unique with (secs + ms / 1000); lia).
  rewrite E1, E2, s32_small, u16_small by lia.
  split; [reflexivity|]. split; [reflexivity|].
  intros Hlt. rewrite Z.div_small, Z.mod_small by lia. split; lia.
Qed.

Lemma rtcTimeMake_components_witness :
  rtcTimeGetSeconds (rtcTimeMake 1749990645 123) = 1749990645 /\
  rtcTimeGetMillis (rtcTimeMake 1749990645 123) = 123.
Proof.
  apply (proj2 (proj2 (rtcTimeMake_components 1749990645 123 ltac:(lia) ltac:(lia)
                         ltac:(vm_compute; reflexivity)))).
  lia.
Defined.

(** X2.  For a non-negative scalar whose seconds fit [int32_t],
    rebuilding it from its two components gives the scalar back. *)
Theorem rtcTimeMake_of_components (t : rtcTime_t) :
  seconds_fit_int32 t ->
  rtcTimeMake (rtcTimeGetSeconds t) (rtcTimeGetMillis t) = t.
Proof.
  intros [H0 H1]. unfold MILLIS_PER_SECOND in H1.
  assert (Hq : 0 <= t / 1000) by (apply Z.div_pos; lia).
  pose proof (Z.div_mod t 1000 ltac:(lia)) as Dm.
  pose proof (Z.mod_pos_bound t 1000 ltac:(lia)) as Bm.
  unfold rtcTimeGetSeconds, rtcTimeGetMillis, rtcTimeMake, MILLIS_PER_SECOND.
  rewrite Z.quot_div_nonneg, Z.rem_mod_nonneg by lia.
  rewrite !(s32_small (t / 1000)), !(u16_small (t mod 1000)) by lia.
  rewrite s64_small by lia. lia.
Qed.

Lemma rtcTimeMake_of_components_witness :
  rtcTimeMake (rtcTimeGetSeconds 1749990645123) (rtcTimeGetMillis 1749990645123)
  = 1749990645123.
Proof.
  apply rtcTimeMake_of_components.
  unfold seconds_fit_int32, MILLIS_PER_SECOND. split; [lia|]. vm_compute. discriminate.
Defined.

(** X3.  With a negative count of seconds and a non-zero count of
    milliseconds the components do not come back: division truncates
    toward zero, so [rtcTimeGetSeconds] returns one second more, and the
    negative remainder is converted to [uint16_t], so [rtcTimeGetMillis]
    returns the milliseconds plus 64536. *)
Theorem rtcTimeMake_negative_seconds (secs ms : Z) :
  -2147483648 <= secs < 0 -> 0 < ms < 1000 ->
  rtcTimeMake secs ms = secs * 1000 + ms /\
  rtcTimeGetSeconds (rtcTimeMake secs ms) = secs + 1 /\
  rtcTimeGetMillis (rtcTimeMake secs ms) = ms + 64536.
Proof.
  intros Hs Hms.
  unfold rtcTimeGetSeconds, rtcTimeGetMillis, rtcTimeMake, MILLIS_PER_SECOND.
  rewrite (s32_small secs), (u16_small ms), s64_small by lia.
  split; [reflexivity|].
  destruct (quot_rem_nonpos (secs * 1000 + ms) 1000 ltac:(lia) ltac:(lia)) as [Q R].
  assert (E1 : (- (secs * 1000 + ms)) / 1000 = - secs - 1)
    by (symmetry; apply Z.div_unique with (1000 - ms); lia).
  assert (E2 : (- (secs * 1000 + ms)) mod 1000 = 1000 - ms)
    by (symmetry; apply Z.mod_unique with (- secs - 1); lia).
  rewrite Q, R, E1, E2. split.
  - rewrite s32_small by lia. lia.
  - unfold u16, to_unsigned. change (2 ^ 16) with 65536.
    symmetry. apply Z.mod_unique with (-1); lia.
Qed.

Lemma rtcTimeMake_negative_seconds_witness :
  rtcTimeMake (-1) 500 = -500 /\
  rtcTimeGetSeconds (rtcTimeMake (-1) 500) = 0 /\
  rtcTimeGetMillis (rtcTimeMake (-1) 500) = 65036.
Proof.
  exact (rtcTimeMake_negative_seconds (-1) 500 ltac:(lia) ltac:(lia)).
Defined.

(** ** The downward scans on every input *)

(** X4.  The loop [for (i = n; i > 0; i--) if (p i) break;] leaves [i]
    at the greatest index in [1..n] that passes the test, and at 0 when
    none does. *)
Theorem scan_down_greatest (p : nat -> bool) (n : nat) :
  (scan_down p n <= n)%nat /\
  (scan_down p n <> O -> p (scan_down p n) = true) /\
  (forall j, (scan_down p n < j <= n)%nat -> p j = false).
Proof.
  induction n as [|n (IH1 & IH2 & IH3)]; cbn [scan_down].
  - split; [lia|]. split; [congruence|]. intros j Hj. lia.
  - destruct (p (S n)) eqn:E.
    + split; [lia|]. split; [intros _; exact E|]. intros j Hj. lia.
    + split; [lia|]. split; [exact IH2|].
      intros j Hj. destruct (Nat.eq_dec j (S n)) as [->|Hne]; [exact E|].
      apply IH3. lia.
Qed.

Lemma scan_down_none (p : nat -> bool) (n : nat) :
  (forall j, (1 <= j <= n)%nat -> p j = false) -> scan_down p n = O.
Proof.
  intros H. induction n as [|n IH]; cbn [scan_down]; [reflexivity|].
  rewrite (H (S n)) by lia. apply IH. intros j Hj. apply H. lia.
Qed.

Lemma rtcTimeToDateTime_month (dt : dateTime_t) (t : rtcTime_t) :
  exists y m, (m <= 11)%nat /\ month (rtcTimeToDateTime dt t) = Z.of_nat m + 1 /\
              m = scan_down (fun month => days_at y month <=?
                     Z.rem (s32 (t ÷ 1000) ÷ 60 ÷ 60 ÷ 24) 1461) 11 /\
              y = scan_down (fun year => days_at year 0 <=?
                     Z.rem (s32 (t ÷ 1000) ÷ 60 ÷ 60 ÷ 24) 1461) 3.
Proof.
  unfold rtcTimeToDateTime, MILLIS_PER_SECOND. cbv zeta.
  change (365 * 4 + 1) with 1461.
  set (r := Z.rem (s32 (t ÷ 1000) ÷ 60 ÷ 60 ÷ 24) 1461).
  set (y := scan_down (fun year => days_at year 0 <=? r) 3).
  set (m := scan_down (fun month => days_at y month <=? r) 11).
  exists y, m.
  assert (Hm : (m <= 11)%nat) by apply scan_down_le.
  split; [exact Hm|]. split; [|split; reflexivity].
  unfold set_millis, set_day, set_month, set_year, set_hours, set_minutes, set_seconds.
  cbn [month]. rewrite (u32_small (Z.of_nat m + 1)), u8_small by lia. reflexivity.
Qed.

(** X5.  Whatever the epoch scalar, negative or beyond the range of
    [int32_t] included, the month [rtcTimeToDateTime] writes is in
    1..12, so that [dateTimeToRtcTime] applied to the record it fills
    never reads outside the table. *)
Theorem rtcTimeToDateTime_month_always_valid (dt : dateTime_t) (t : rtcTime_t) :
  1 <= month (rtcTimeToDateTime dt t) <= 12 /\
  exists t', dateTimeToRtcTime (rtcTimeToDateTime dt t) = Some t'.
Proof.
  destruct (rtcTimeToDateTime_month dt t) as (y & m & Hm & Em & _).
  assert (H : 1 <= month (rtcTimeToDateTime dt t) <= 12) by lia.
  split; [exact H|]. apply dateTimeToRtcTime_defined. exact H.
Qed.

Lemma table_entries_after_first :
  forallb (fun y => forallb (fun m => (Nat.eqb y 0 && Nat.eqb m 0) || (31 <=? days_at y m))
                            (seq 0 12))
          (seq 0 4) = true.
Proof. vm_compute. reflexivity. Qed.

Lemma table_entry_ge_31 (y m : nat) :
  (y <= 3)%nat -> (m <= 11)%nat -> (y <> 0 \/ m <> 0)%nat -> 31 <= days_at y m.
Proof.
  intros Hy Hm Hne.
  pose proof (proj1 (forallb_forall _ _) table_entries_after_first y) as Ty.
  assert (Iy : In y (seq 0 4)) by (apply in_seq; lia).
  pose proof (proj1 (forallb_forall _ _) (Ty Iy) m) as Tm.
  assert (Im : In m (seq 0 12)) by (apply in_seq; lia).
  specialize (Tm Im). apply orb_true_iff in Tm. destruct Tm as [Tm|Tm].
  - apply andb_true_iff in Tm. destruct Tm as [A B].
    apply Nat.eqb_eq in A. apply Nat.eqb_eq in B. lia.
  - apply Z.leb_le. exact Tm.
Qed.

(** X6.  For every negative epoch scalar whose seconds fit [int32_t],
    both scans run down to index 0: the month written is 1 whatever the
    instant, and the year is between 1902 and 1970. *)
Theorem rtcTimeToDateTime_before_epoch (dt : dateTime_t) (t : rtcTime_t) :
  -2147483648000 <= t < 0 ->
  month (rtcTimeToDateTime dt t) = 1 /\
  1902 <= year (rtcTimeToDateTime dt t) <= 1970.
Proof.
  intros Ht.
  destruct (quot_nonpos_bounds t 1000 ltac:(lia) ltac:(lia)) as [B0 _].
  assert (B0' : -2147483648 <= t ÷ 1000).
  { destruct (quot_rem_nonpos t 1000 ltac:(lia) ltac:(lia)) as [Q _]. rewrite Q.
    assert (- t / 1000 < 2147483649) by (apply Z.div_lt_upper_bound; lia). lia. }
  set (u0 := t ÷ 1000) in *.
  destruct (quot_nonpos_bounds u0 60 ltac:(lia) ltac:(lia)) as [B1 _].
  set (u1 := u0 ÷ 60) in *.
  destruct (quot_nonpos_bounds u1 60 ltac:(lia) ltac:(lia)) as [B2 _].
  set (u2 := u1 ÷ 60) in *.
  destruct (quot_nonpos_bounds u2 24 ltac:(lia) ltac:(lia)) as [B3 _].
  assert (B3' : -24856 < u2 ÷ 24).
  { destruct (quot_rem_nonpos u2 24 ltac:(lia) ltac:(lia)) as [Q _]. rewrite Q.
    destruct (quot_rem_nonpos u1 60 ltac:(lia) ltac:(lia)) as [Q1 _].
    destruct (quot_rem_nonpos u0 60 ltac:(lia) ltac:(lia)) as [Q0 _].
    assert (- u0 / 60 < 35791395) by (apply Z.div_lt_upper_bound; lia).
    assert (A1 : - u1 / 60 < 596524).
    { apply Z.div_lt_upper_bound; [lia|]. subst u1. rewrite Q0. lia. }
    assert (- u2 / 24 < 24856).
    { apply Z.div_lt_upper_bound; [lia|]. subst u2. rewrite Q1. lia. }
    lia. }
  set (dayno := u2 ÷ 24) in *.
  destruct (quot_nonpos_bounds dayno 1461 ltac:(lia) ltac:(lia)) as [B4 B5].
  assert (B4' : -18 < dayno ÷ 1461).
  { destruct (quot_rem_nonpos dayno 1461 ltac:(lia) ltac:(lia)) as [Q _]. rewrite Q.
    assert (- dayno / 1461 < 18) by (apply Z.div_lt_upper_bound; lia). lia. }
  unfold rtcTimeToDateTime, MILLIS_PER_SECOND, UNIX_REFERENCE_YEAR. cbv zeta.
  change (365 * 4 + 1) with 1461.
  rewrite (s32_small (t ÷ 1000)) by (fold u0; lia).
  fold u0. fold u1. fold u2. fold dayno.
  set (r := Z.rem dayno 1461) in *.
  assert (Ey : scan_down (fun year => days_at year 0 <=? r) 3 = O).
  { apply scan_down_none. intros j Hj. apply Z.leb_gt.
    pose proof (table_entry_ge_31 j 0 ltac:(lia) ltac:(lia) ltac:(lia)). lia. }
  rewrite Ey.
  assert (Em : scan_down (fun month => days_at 0 month <=? r) 11 = O).
  { apply scan_down_none. intros j Hj. apply Z.leb_gt.
    pose proof (table_entry_ge_31 0 j ltac:(lia) ltac:(lia) ltac:(lia)). lia. }
  rewrite Em.
  unfold set_millis, set_day, set_month, set_year, set_hours, set_minutes, set_seconds.
  cbn [month year]. split; [reflexivity|].
  set (q4 := dayno ÷ 1461 * 4).
  assert (Eyear : u16 (u32 (u32 q4 + Z.of_nat 0 + 1970)) = q4 + 1970).
  { unfold u16, u32, to_unsigned. change (2 ^ 32) with 4294967296.
    change (2 ^ 16) with 65536. change (Z.of_nat 0) with 0.
    rewrite Z.add_0_r, Zplus_mod_idemp_l.
    assert (E32 : (q4 + 1970) mod 4294967296 = q4 + 1970)
      by (apply Z.mod_small; subst q4; lia).
    rewrite E32. apply Z.mod_small. subst q4. lia. }
  rewrite Eyear. subst q4. lia.
Qed.

Lemma rtcTimeToDateTime_before_epoch_witness :
  month (rtcTimeToDateTime stale (-86400000 * 200)) = 1 /\
  1902 <= year (rtcTimeToDateTime stale (-86400000 * 200)) <= 1970.
Proof.
  apply (rtcTimeToDateTime_before_epoch stale (-86400000 * 200)). lia.
Defined.

(** ** Distinct instants, distinct calendars *)

(** X7.  Two different epoch scalars in the supported range are never
    mapped to the same record by [rtcTimeToDateTime]. *)
Theorem rtcTimeToDateTime_injective (dt1 dt2 : dateTime_t) (t1 t2 : rtcTime_t) :
  seconds_fit_int32 t1 -> seconds_fit_int32 t2 -> t1 <> t2 ->
  rtcTimeToDateTime dt1 t1 <> rtcTimeToDateTime dt2 t2.
Proof.
  intros H1 H2 Hne E. apply Hne.
  rewrite (rtcTimeToDateTime_calendar_of dt1 t1 H1) in E.
  rewrite (rtcTimeToDateTime_calendar_of dt2 t2 H2) in E.
  pose proof (dateTimeToRtcTime_calendar_of t1 H1) as R1.
  pose proof (dateTimeToRtcTime_calendar_of t2 H2) as R2.
  rewrite E in R1. congruence.
Qed.

Lemma rtcTimeToDateTime_injective_witness :
  rtcTimeToDateTime stale 1749990645123 <> rtcTimeToDateTime stale 1749990645124.
Proof.
  assert (H1 : seconds_fit_int32 1749990645123).
  { unfold seconds_fit_int32, MILLIS_PER_SECOND. split; [lia|]. vm_compute. discriminate. }
  assert (H2 : seconds_fit_int32 1749990645124).
  { unfold seconds_fit_int32, MILLIS_PER_SECOND. split; [lia|]. vm_compute. discriminate. }
  apply (rtcTimeToDateTime_injective stale stale 1749990645123 1749990645124 H1 H2). lia.
Defined.

(** ** The value of [dateTimeToRtcTime] *)

Lemma table_entries_bounded :
  forallb (fun y => forallb (fun m => (0 <=? days_at y m) && (days_at y m <=? 1430))
                            (seq 0 12))
          (seq 0 4) = true.
Proof. vm_compute. reflexivity. Qed.

Lemma table_entry_bounds (y m : nat) :
  (y <= 3)%nat -> (m <= 11)%nat -> 0 <= days_at y m <= 1430.
Proof.
  intros Hy Hm.
  pose proof (proj1 (forallb_forall _ _) table_entries_bounded y) as Ty.
  assert (Iy : In y (seq 0 4)) by (apply in_seq; lia).
  pose proof (proj1 (forallb_forall _ _) (Ty Iy) m) as Tm.
  assert (Im : In m (seq 0 12)) by (apply in_seq; lia).
  specialize (Tm Im). apply andb_true_iff in Tm. destruct Tm as [A B].
  apply Z.leb_le in A. apply Z.leb_le in B. lia.
Qed.

Lemma dateTimeToRtcTime_value (dt : dateTime_t) :
  fields_in_range dt -> before_rollover dt ->
  dateTimeToRtcTime dt
  = Some ((table_days dt * 86400 + second_of_day dt) * 1000 + millis dt) /\
  0 <= table_days dt * 86400 + second_of_day dt < 2147483648 /\
  0 <= table_days dt.
Proof.
  destruct dt as [Y M D h mi s ms].
  unfold fields_in_range, before_rollover, table_days, second_of_day.
  cbn [year month day hours minutes seconds millis].
  intros (HY & HM & HD & Hh & Hmi & Hs & Hms) HB.
  assert (HY2 : Y <= 2038) by lia.
  pose proof (Z.div_mod (Y - 1970) 4 ltac:(lia)) as Eyy.
  pose proof (Z.mod_pos_bound (Y - 1970) 4 ltac:(lia)) as Hrow.
  set (q := (Y - 1970) / 4) in *.
  set (rn := Z.to_nat ((Y - 1970) mod 4)).
  set (cn := Z.to_nat (M - 1)).
  assert (Ern : (Y - 1970) mod 4 = Z.of_nat rn) by (subst rn; lia).
  assert (Ecn : M - 1 = Z.of_nat cn) by (subst cn; lia).
  assert (Hrn : (rn <= 3)%nat) by lia.
  assert (Hcn : (cn <= 11)%nat) by lia.
  pose proof (table_entry_bounds rn cn Hrn Hcn) as Hd.
  set (d := days_at rn cn) in *.
  set (X := (q * 1461 + d + (D - 1)) * 86400 + ((h * 60 + mi) * 60 + s)).
  assert (HX : 0 <= X < 2147483648).
  { destruct HB as [HB | (EY & EM & HB)].
    - assert (q <= 16) by lia. subst X. lia.
    - assert (Eq : q = 17) by lia.
      assert (Ed : d = 0).
      { subst d rn cn. rewrite EY, EM. reflexivity. }
      subst X. rewrite Eq, Ed. lia. }
  split; [|split; [exact HX | lia]].
  rewrite (dateTimeToRtcTime_in_table _ rn cn Hrn Hcn); cbn [year month]; try lia.
  fold d. unfold unixTimeOf, UNIX_REFERENCE_YEAR.
  cbn [year month day hours minutes seconds millis].
  change (365 * 4 + 1) with 1461.
  rewrite (u32_small s), (u32_small mi), (u32_small h), (u32_small (D - 1)),
          (u32_small (Y - 1970)) by lia.
  fold q.
  replace ((((q * 1461 + d + (D - 1)) * 24 + h) * 60 + mi) * 60 + s) with X
    by (subst X; lia).
  rewrite (u32_small X), (s32_small X) by lia.
  unfold rtcTimeMake, MILLIS_PER_SECOND.
  rewrite (s32_small X), (u16_small ms), s64_small by lia.
  reflexivity.
Qed.

(** X8.  For a record whose month field holds a [uint8_t] value,
    [dateTimeToRtcTime] reads outside the table exactly when the month
    is 0 or above 12; the other fields play no part. *)
Theorem dateTimeToRtcTime_undefined_iff (dt : dateTime_t) :
  0 <= month dt <= 255 ->
  dateTimeToRtcTime dt = None <-> ~ (1 <= month dt <= 12).
Proof.
  intros Hm. split.
  - intros E Hin. destruct (dateTimeToRtcTime_defined dt Hin) as [t Ht]. congruence.
  - intros Hout. unfold dateTimeToRtcTime.
    set (r := u32 (year dt - UNIX_REFERENCE_YEAR) mod 4).
    assert (Ec : 12 <= u32 (month dt - 1)).
    { destruct (Z.eq_dec (month dt) 0) as [E0|E0].
      - rewrite E0. vm_compute. discriminate.
      - rewrite u32_small by lia. lia. }
    unfold days_get.
    assert (F : (u32 (month dt - 1) <? 12) = false) by (apply Z.ltb_ge; exact Ec).
    rewrite F, andb_false_r. reflexivity.
Qed.

Lemma dateTimeToRtcTime_undefined_iff_witness :
  dateTimeToRtcTime (mkDateTime 2025 13 1 0 0 0 0) = None /\
  dateTimeToRtcTime (mkDateTime 2025 0 1 0 0 0 0) = None.
Proof.
  split.
  - apply (proj2 (dateTimeToRtcTime_undefined_iff (mkDateTime 2025 13 1 0 0 0 0)
                    ltac:(cbn [month]; lia))).
    cbn [month]. lia.
  - apply (proj2 (dateTimeToRtcTime_undefined_iff (mkDateTime 2025 0 1 0 0 0 0)
                    ltac:(cbn [month]; lia))).
    cbn [month]. lia.
Defined.

(** X9.  In every year that the table takes for the third of its group
    (1972, 1976, ... 2036), February 29 and March 1 get the same epoch
    scalar at every time of day: the two dates cannot be told apart
    after conversion. *)
Theorem leap_day_collides_with_march_first (k h mi s ms : Z) :
  0 <= k <= 16 -> 0 <= h <= 23 -> 0 <= mi <= 59 -> 0 <= s <= 59 -> 0 <= ms <= 999 ->
  exists t,
    dateTimeToRtcTime (mkDateTime (1972 + 4 * k) 2 29 h mi s ms) = Some t /\
    dateTimeToRtcTime (mkDateTime (1972 + 4 * k) 3 1 h mi s ms) = Some t.
Proof.
  intros Hk Hh Hmi Hs Hms.
  assert (Er : (1972 + 4 * k - 1970) mod 4 = 2).
  { replace (1972 + 4 * k - 1970) with (2 + k * 4) by lia.
    rewrite Z.mod_add by lia. reflexivity. }
  destruct (dateTimeToRtcTime_value (mkDateTime (1972 + 4 * k) 2 29 h mi s ms))
    as (V1 & _).
  { unfold fields_in_range. cbn [year month day hours minutes seconds millis]. lia. }
  { unfold before_rollover. cbn [year]. lia. }
  destruct (dateTimeToRtcTime_value (mkDateTime (1972 + 4 * k) 3 1 h mi s ms))
    as (V2 & _).
  { unfold fields_in_range. cbn [year month day hours minutes seconds millis]. lia. }
  { unfold before_rollover. cbn [year]. lia. }
  eexists. split; [exact V1|]. rewrite V2.
  unfold table_days, second_of_day. cbn [year month day hours minutes seconds millis].
  rewrite Er.
  change (days_at (Z.to_nat 2) (Z.to_nat (2 - 1))) with 762.
  change (days_at (Z.to_nat 2) (Z.to_nat (3 - 1))) with 790.
  apply f_equal. lia.
Qed.

Lemma leap_day_collides_with_march_first_witness :
  exists t,
    dateTimeToRtcTime (mkDateTime (1972 + 4 * 13) 2 29 12 30 45 0) = Some t /\
    dateTimeToRtcTime (mkDateTime (1972 + 4 * 13) 3 1 12 30 45 0) = Some t.
Proof.
  apply (leap_day_collides_with_march_first 13 12 30 45 0); lia.
Defined.

(** ** [dateTimeToRtcTime] against Unix time *)

Lemma month_starts_checked :
  forallb (fun y => forallb (fun m => month_start_checked (1970 + Z.of_nat y)
                                                          (1 + Z.of_nat m))
                            (seq 0 12))
          (seq 0 69) = true.
Proof. vm_compute. reflexivity. Qed.

Lemma table_month_start (Y M : Z) :
  1970 <= Y <= 2038 -> 1 <= M <= 12 ->
  (Y - 1970) / 4 * 1461 + days_at (Z.to_nat ((Y - 1970) mod 4)) (Z.to_nat (M - 1))
  = unix_month_start Y M + leap_skew Y M.
Proof.
  intros HY HM.
  pose proof (proj1 (forallb_forall _ _) month_starts_checked (Z.to_nat (Y - 1970))) as Ty.
  assert (Iy : In (Z.to_nat (Y - 1970)) (seq 0 69)) by (apply in_seq; lia).
  pose proof (proj1 (forallb_forall _ _) (Ty Iy) (Z.to_nat (M - 1))) as Tm.
  assert (Im : In (Z.to_nat (M - 1)) (seq 0 12)) by (apply in_seq; lia).
  specialize (Tm Im). unfold month_start_checked in Tm.
  replace (1970 + Z.of_nat (Z.to_nat (Y - 1970))) with Y in Tm by lia.
  replace (1 + Z.of_nat (Z.to_nat (M - 1))) with M in Tm by lia.
  apply Z.eqb_eq in Tm. exact Tm.
Qed.

Lemma valid_fields_in_range (dt : dateTime_t) : valid_dateTime dt -> fields_in_range dt.
Proof.
  unfold valid_dateTime, fields_in_range, UNIX_REFERENCE_YEAR.
  pose proof (days_in_month_le_31 (year dt) (month dt)). intros H'. lia.
Qed.

(** X10.  For every valid record before 2038-01-19T03:14:08, leap days
    included, the scalar [dateTimeToRtcTime] returns counts the days of
    Unix time plus one day when the date lies between March 1 of a year
    1970+4k and the end of February of the year 1972+4k, and exactly the
    days of Unix time otherwise. *)
Theorem dateTimeToRtcTime_versus_unix_time (dt : dateTime_t) :
  valid_dateTime dt -> before_rollover dt ->
  dateTimeToRtcTime dt
  = Some (((unix_days dt + leap_skew (year dt) (month dt)) * 86400 + second_of_day dt)
          * 1000 + millis dt).
Proof.
  intros V B. pose proof (valid_fields_in_range dt V) as F.
  destruct (dateTimeToRtcTime_value dt F B) as (E & _). rewrite E.
  assert (HY : 1970 <= year dt <= 2038).
  { unfold fields_in_range in F. unfold before_rollover in B. lia. }
  assert (HM : 1 <= month dt <= 12) by (unfold fields_in_range in F; lia).
  unfold table_days, unix_days.
  rewrite (table_month_start (year dt) (month dt) HY HM).
  apply f_equal. lia.
Qed.

Lemma dateTimeToRtcTime_versus_unix_time_witness :
  dateTimeToRtcTime (mkDateTime 2025 6 15 12 30 45 123) = Some 1749990645123 /\
  dateTimeToRtcTime (mkDateTime 2023 11 14 22 13 23 0) = Some (1700000003000 + 86400000).
Proof.
  split.
  - rewrite (dateTimeToRtcTime_versus_unix_time (mkDateTime 2025 6 15 12 30 45 123)).
    + vm_compute. reflexivity.
    + unfold valid_dateTime, UNIX_REFERENCE_YEAR.
      cbn [year month day hours minutes seconds millis].
      change (days_in_month 2025 6) with 30. lia.
    + unfold before_rollover. cbn [year]. lia.
  - rewrite (dateTimeToRtcTime_versus_unix_time (mkDateTime 2023 11 14 22 13 23 0)).
    + vm_compute. reflexivity.
    + unfold valid_dateTime, UNIX_REFERENCE_YEAR.
      cbn [year month day hours minutes seconds millis].
      change (days_in_month 2023 11) with 30. lia.
    + unfold before_rollover. cbn [year]. lia.
Defined.

(** ** Setting and reading the clock through calendar records *)

Lemma valid_record_epoch (dt : dateTime_t) :
  valid_dateTime dt -> ~ (month dt = 2 /\ day dt = 29) -> before_rollover dt ->
  exists t, dateTimeToRtcTime dt = Some t /\ seconds_fit_int32 t /\ calendar_of t = dt.
Proof.
  intros V NF B. pose proof (valid_fields_in_range dt V) as F.
  destruct (dateTimeToRtcTime_value dt F B) as (E & HX & Hdays).
  eexists. split; [exact E|].
  destruct dt as [Y M D h mi s ms].
  unfold valid_dateTime, fields_in_range, table_days, second_of_day, UNIX_REFERENCE_YEAR in *.
  cbn [year month day hours minutes seconds millis] in *.
  destruct V as (HY & HM & HD & Hh & Hmi & Hs & Hms).
  pose proof (Z.div_mod (Y - 1970) 4 ltac:(lia)) as Eyy.
  pose proof (Z.mod_pos_bound (Y - 1970) 4 ltac:(lia)) as Hrow.
  set (q := (Y - 1970) / 4) in *.
  set (rn := Z.to_nat ((Y - 1970) mod 4)) in *.
  set (cn := Z.to_nat (M - 1)) in *.
  assert (Hrn : (rn <= 3)%nat) by lia.
  assert (Hcn : (cn <= 11)%nat) by lia.
  pose proof (real_day_in_cell Y M D rn HM HD NF Hrn) as Hcell. fold cn in Hcell.
  destruct (cell_is_found rn cn (D - 1) Hrn Hcn Hcell) as (Sy & Sm & Hr).
  set (d := days_at rn cn) in *.
  set (r := d + (D - 1)) in *.
  set (X := (q * 1461 + d + (D - 1)) * 86400 + ((h * 60 + mi) * 60 + s)) in *.
  split.
  - unfold seconds_fit_int32, MILLIS_PER_SECOND. split; [lia|].
    assert (E1 : (X * 1000 + ms) / 1000 = X)
      by (symmetry; apply Z.div_unique with ms; lia).
    rewrite E1. lia.
  - replace (X * 1000 + ms)
      with ((((((q * 1461 + r) * 24 + h) * 60 + mi) * 60 + s)) * 1000 + ms)
      by (subst X r; lia).
    rewrite calendar_of_compose by lia.
    rewrite Sy, Sm. fold d. f_equal; subst r rn; lia.
Qed.

(** X11.  After [rtcSetDateTime] with a valid record that is not a
    February 29 and lies before 2038-01-19T03:14:08, called at an uptime
    different from the epoch scalar of the record, [rtcSetDateTime] has
    returned true and [rtcGetDateTime] at the same uptime returns true
    and fills its output with the record that was set. *)
Theorem rtcSetDateTime_then_rtcGetDateTime
        (dt out : dateTime_t) (u0 : Z) (started : rtcState) :
  valid_dateTime dt -> ~ (month dt = 2 /\ day dt = 29) -> before_rollover dt ->
  is_uptime u0 -> dateTimeToRtcTime dt <> Some u0 ->
  exists st,
    rtcSetDateTime dt u0 started = Some (st, true) /\
    rtcGetDateTime out u0 st = (dt, true).
Proof.
  intros V NF B Hu Hne.
  destruct (valid_record_epoch dt V NF B) as (t & Et & Hfit & Ec).
  assert (Htu : t <> u0).
  { intros C. apply Hne. rewrite Et, C. reflexivity. }
  destruct Hfit as [H0 H1]. unfold MILLIS_PER_SECOND in H1. unfold is_uptime in Hu.
  assert (Ht : t < 2147483648000).
  { pose proof (Z.div_mod t 1000 ltac:(lia)).
    pose proof (Z.mod_pos_bound t 1000 ltac:(lia)). lia. }
  exists (t - u0). unfold rtcSetDateTime. rewrite Et. unfold rtcSet.
  rewrite (u32_small u0), s64_small by lia. split; [reflexivity|].
  unfold rtcGetDateTime, rtcGet, rtcHasTime.
  destruct (Z.eqb_spec (t - u0) 0) as [C|C]; [lia|]. cbn [negb].
  rewrite (u32_small u0), s64_small by lia.
  replace (t - u0 + u0) with t by lia.
  rewrite (rtcTimeToDateTime_calendar_of out t); [|split; assumption].
  rewrite Ec. reflexivity.
Qed.

Lemma rtcSetDateTime_then_rtcGetDateTime_witness :
  exists st,
    rtcSetDateTime (mkDateTime 2025 6 15 12 30 45 123) 4000 started_init = Some (st, true) /\
    rtcGetDateTime stale 4000 st = (mkDateTime 2025 6 15 12 30 45 123, true).
Proof.
  apply (rtcSetDateTime_then_rtcGetDateTime (mkDateTime 2025 6 15 12 30 45 123)).
  - unfold valid_dateTime, UNIX_REFERENCE_YEAR.
    cbn [year month day hours minutes seconds millis].
    change (days_in_month 2025 6) with 30. lia.
  - cbn [month day]. lia.
  - unfold before_rollover. cbn [year]. lia.
  - unfold is_uptime. lia.
  - vm_compute. discriminate.
Defined.

(** X12.  [rtcGet] does not depend on when the time was set: two
    readings of an established clock differ by exactly the difference of
    the uptimes at which they are taken. *)
Theorem rtcGet_advances_with_uptime (u1 u2 : Z) (started : rtcState) :
  is_uptime u1 -> is_uptime u2 -> rtcHasTime started = true ->
  is_rtcTime (started + u1) -> is_rtcTime (started + u2) ->
  exists v1 v2,
    rtcGet u1 started = Some v1 /\ rtcGet u2 started = Some v2 /\
    v2 - v1 = u2 - u1.
Proof.
  unfold is_uptime, is_rtcTime. intros H1 H2 Hs R1 R2.
  exists (started + u1), (started + u2). unfold rtcGet. rewrite Hs. cbn [negb].
  rewrite (u32_small u1), (u32_small u2), !s64_small by lia.
  split; [reflexivity|]. split; [reflexivity|]. lia.
Qed.

Lemma rtcGet_advances_with_uptime_witness :
  exists v1 v2,
    rtcGet 4000 1749990641000 = Some v1 /\ rtcGet 9000 1749990641000 = Some v2 /\
    v2 - v1 = 9000 - 4000.
Proof.
  apply (rtcGet_advances_with_uptime 4000 9000 1749990641000);
    unfold is_uptime, is_rtcTime; try lia.
  reflexivity.
Defined.

(** ** Local rendering *)

Lemma dateTimeFormat_shifted_value (local dt : dateTime_t) (offset : Z) (t : rtcTime_t) :
  offset <> 0 -> dateTimeToRtcTime dt = Some t ->
  seconds_fit_int32 t -> seconds_fit_int32 (t + offset * 60000) ->
  dateTimeFormat local dt offset
  = Some (date_part (calendar_of (t + offset * 60000))
          ++ tz_suffix (offset ÷ 60) (ABS (Z.rem offset 60)))%string.
Proof.
  intros Ho Et [H0 H1] Hfit'. pose proof Hfit' as [H0' H1'].
  unfold MILLIS_PER_SECOND in H1, H1'.
  unfold dateTimeFormat.
  destruct (Z.eqb_spec offset 0) as [E|_]; [contradiction|]. cbn [negb].
  rewrite Et, render_parts.
  assert (Hq : 0 <= t / 1000) by (apply Z.div_pos; lia).
  pose proof (Z.div_mod t 1000 ltac:(lia)) as Dm.
  pose proof (Z.mod_pos_bound t 1000 ltac:(lia)) as Bm.
  assert (Es : (t + offset * 60000) / 1000 = t / 1000 + offset * 60).
  { replace (offset * 60000) with (offset * 60 * 1000) by lia.
    apply Z.div_add. lia. }
  assert (Hq' : 0 <= t / 1000 + offset * 60).
  { rewrite <- Es. apply Z.div_pos; lia. }
  assert (El : rtcTimeMake (rtcTimeGetSeconds t + offset * 60) (rtcTimeGetMillis t)
               = t + offset * 60000).
  { unfold rtcTimeGetSeconds, rtcTimeGetMillis, rtcTimeMake, MILLIS_PER_SECOND.
    rewrite Z.quot_div_nonneg, Z.rem_mod_nonneg by lia.
    rewrite (s32_small (t / 1000)), (u16_small (t mod 1000)) by lia.
    rewrite (s32_small (t / 1000 + offset * 60)) by lia.
    rewrite (u16_small (t mod 1000)) by lia.
    rewrite s64_small by lia. lia. }
  rewrite El, (rtcTimeToDateTime_calendar_of local _ Hfit'). reflexivity.
Qed.

(** X13.  With a non-zero offset, when the instant of the record and the
    instant shifted by the offset are both non-negative with seconds in
    [int32_t], [dateTimeFormat] renders the calendar of the epoch scalar
    plus [offset * 60000] milliseconds: the date part is the one
    [dateTimeFormatUTC] renders for the record of the shifted scalar, and
    the milliseconds of the record are kept. *)
Theorem dateTimeFormat_renders_shifted_instant
        (local dt : dateTime_t) (offset : Z) (t : rtcTime_t) :
  offset <> 0 -> dateTimeToRtcTime dt = Some t ->
  seconds_fit_int32 t -> seconds_fit_int32 (t + offset * 60000) ->
  dateTimeFormat local dt offset
  = Some (date_part (rtcTimeToDateTime local (t + offset * 60000))
          ++ tz_suffix (offset ÷ 60) (ABS (Z.rem offset 60)))%string /\
  dateTimeFormatUTC local (rtcTimeToDateTime local (t + offset * 60000))
  = Some (date_part (rtcTimeToDateTime local (t + offset * 60000)) ++ "+00:00")%string /\
  millis (rtcTimeToDateTime local (t + offset * 60000)) = t mod 1000.
Proof.
  intros Ho Et Hfit Hfit'.
  rewrite (rtcTimeToDateTime_calendar_of local _ Hfit').
  split; [exact (dateTimeFormat_shifted_value local dt offset t Ho Et Hfit Hfit')|].
  split.
  - unfold dateTimeFormatUTC, dateTimeFormat. cbn [Z.eqb negb].
    rewrite render_parts. reflexivity.
  - unfold calendar_of. cbn [millis].
    replace (offset * 60000) with (offset * 60 * 1000) by lia.
    apply Z.mod_add. lia.
Qed.

Lemma dateTimeFormat_renders_shifted_instant_witness :
  dateTimeFormat stale (mkDateTime 2025 6 15 12 30 45 123) (-300)
  = Some (date_part (rtcTimeToDateTime stale (1749990645123 + -300 * 60000))
          ++ tz_suffix (-300 ÷ 60) (ABS (Z.rem (-300) 60)))%string.
Proof.
  apply (dateTimeFormat_renders_shifted_instant
           stale (mkDateTime 2025 6 15 12 30 45 123) (-300) 1749990645123).
  - lia.
  - vm_compute. reflexivity.
  - unfold seconds_fit_int32, MILLIS_PER_SECOND. split; [lia|]. vm_compute. discriminate.
  - unfold seconds_fit_int32, MILLIS_PER_SECOND. split; [lia|]. vm_compute. discriminate.
Defined.

(** X14.  For every positive offset and every offset of -60 minutes or
    less, the text ends in the sign of the offset, the whole hours of its
    magnitude and the remaining minutes. *)
Theorem dateTimeFormat_suffix_of_whole_hours (local dt : dateTime_t) (offset : Z) :
  -32768 <= offset <= 32767 -> 0 < offset \/ offset <= -60 ->
  1 <= month dt <= 12 ->
  exists body,
    dateTimeFormat local dt offset
    = Some (body ++ String (if (offset <? 0)%Z then "-"%char else "+"%char)
                           (number true 2 (Z.abs offset / 60)%Z ++ ":" ++
                            number true 2 (Z.abs offset mod 60)%Z))%string.
Proof.
  intros Hr Ho Hm.
  destruct (dateTimeFormat_shifted local dt offset ltac:(lia) Hm) as [shifted Hs].
  exists (date_part shifted). rewrite Hs. do 2 apply f_equal.
  unfold tz_suffix, ABS.
  destruct Ho as [Hpos|Hneg].
  - rewrite Z.quot_div_nonneg, Z.rem_mod_nonneg by lia.
    rewrite (Z.abs_eq offset) by lia.
    assert (Hq : 0 <= offset / 60) by (apply Z.div_pos; lia).
    assert (Hq' : offset / 60 < 547) by (apply Z.div_lt_upper_bound; lia).
    pose proof (Z.mod_pos_bound offset 60 ltac:(lia)) as Bm.
    rewrite (Z.abs_eq (offset / 60)), (Z.abs_eq (offset mod 60)) by lia.
    rewrite !s32_small by lia.
    destruct (Z.leb_spec 0 (offset / 60)) as [_|C]; [|lia].
    destruct (Z.ltb_spec offset 0) as [C|_]; [lia|]. reflexivity.
  - destruct (quot_rem_nonpos offset 60 ltac:(lia) ltac:(lia)) as [Q R].
    rewrite Q, R. rewrite (Z.abs_neq offset) by lia.
    assert (Hq : 1 <= - offset / 60) by (apply Z.div_le_lower_bound; lia).
    assert (Hq' : - offset / 60 < 547) by (apply Z.div_lt_upper_bound; lia).
    pose proof (Z.mod_pos_bound (- offset) 60 ltac:(lia)) as Bm.
    rewrite (Z.abs_neq (- (- offset / 60))), (Z.abs_neq (- (- offset mod 60))) by lia.
    rewrite !Z.opp_involutive. rewrite !s32_small by lia.
    destruct (Z.leb_spec 0 (- (- offset / 60))) as [C|_]; [lia|].
    destruct (Z.ltb_spec offset 0) as [_|C]; [|lia]. reflexivity.
Qed.

Lemma dateTimeFormat_suffix_of_whole_hours_witness :
  exists body,
    dateTimeFormat stale (mkDateTime 2025 6 15 12 30 45 123) (-570)
    = Some (body ++ "-09:30")%string.
Proof.
  apply (dateTimeFormat_suffix_of_whole_hours
           stale (mkDateTime 2025 6 15 12 30 45 123) (-570));
    cbn [month]; lia.
Defined.

(** ** Which records survive the round trip *)

(** X15.  For a record with fields in range before 2038-01-19T03:14:08,
    the conversion to an epoch scalar and back returns the record if and
    only if its day is at most the number of days the table gives to its
    month in the row of its year: 29 for a February of 1970, 1974, ...,
    28 for the February of any other year. *)
Theorem round_trip_iff_day_in_table (local dt : dateTime_t) :
  fields_in_range dt -> before_rollover dt ->
  exists t,
    dateTimeToRtcTime dt = Some t /\
    (rtcTimeToDateTime local t = dt <->
     day dt <= table_month_length (Z.to_nat ((year dt - 1970) mod 4))
                                  (Z.to_nat (month dt - 1))).
Proof.
  intros F B.
  destruct (dateTimeToRtcTime_value dt F B) as (E & HX & Hdays).
  eexists. split; [exact E|].
  destruct dt as [Y M D h mi s ms].
  unfold fields_in_range, table_days, second_of_day in *.
  cbn [year month day hours minutes seconds millis] in *.
  destruct F as (HY & HM & HD & Hh & Hmi & Hs & Hms).
  pose proof (Z.div_mod (Y - 1970) 4 ltac:(lia)) as Eyy.
  pose proof (Z.mod_pos_bound (Y - 1970) 4 ltac:(lia)) as Hrow.
  set (q := (Y - 1970) / 4) in *.
  set (rn := Z.to_nat ((Y - 1970) mod 4)) in *.
  set (cn := Z.to_nat (M - 1)) in *.
  assert (Hrn : (rn <= 3)%nat) by lia.
  assert (Hcn : (cn <= 11)%nat) by lia.
  pose proof (table_entry_bounds rn cn Hrn Hcn) as Hd.
  set (d := days_at rn cn) in *.
  set (r := d + (D - 1)) in *.
  assert (Hr : 0 <= r < 1461) by (subst r; lia).
  set (X := (q * 1461 + d + (D - 1)) * 86400 + ((h * 60 + mi) * 60 + s)) in *.
  assert (Hfit : seconds_fit_int32 (X * 1000 + ms)).
  { unfold seconds_fit_int32, MILLIS_PER_SECOND. split; [lia|].
    assert (E1 : (X * 1000 + ms) / 1000 = X)
      by (symmetry; apply Z.div_unique with ms; lia).
    rewrite E1. lia. }
  rewrite (rtcTimeToDateTime_calendar_of local _ Hfit).
  replace (X * 1000 + ms)
    with ((((((q * 1461 + r) * 24 + h) * 60 + mi) * 60 + s)) * 1000 + ms)
    by (subst X r; lia).
  rewrite calendar_of_compose by lia.
  destruct (scan_indices_in_table r) as (Hy' & Hm' & _).
  destruct (scan_finds_cell r Hr) as (Hc & _).
  set (y' := scan_year r) in *. set (m' := scan_month y' r) in *.
  split.
  - intros Eq. injection Eq as EY EM ED.
    assert (Ey : y' = rn) by lia. assert (Em : m' = cn) by lia.
    rewrite Ey, Em in Hc. fold d in Hc. subst r. lia.
  - intros Hday.
    destruct (cell_is_found rn cn (D - 1) Hrn Hcn ltac:(lia)) as (Sy & Sm & _).
    fold d in Sy, Sm. fold r in Sy, Sm.
    assert (Ey : y' = rn) by exact Sy.
    assert (Em : m' = cn) by (subst m'; rewrite Ey; exact Sm).
    rewrite Ey, Em. fold d. f_equal; subst r rn; lia.
Qed.

Lemma round_trip_iff_day_in_table_witness :
  exists t,
    dateTimeToRtcTime (mkDateTime 1974 2 29 0 0 0 0) = Some t /\
    (rtcTimeToDateTime stale t = mkDateTime 1974 2 29 0 0 0 0 <->
     day (mkDateTime 1974 2 29 0 0 0 0)
     <= table_month_length (Z.to_nat ((1974 - 1970) mod 4)) (Z.to_nat (2 - 1))).
Proof.
  apply (round_trip_iff_day_in_table stale (mkDateTime 1974 2 29 0 0 0 0)).
  - unfold fields_in_range. cbn [year month day hours minutes seconds millis]. lia.
  - unfold before_rollover. cbn [year]. lia.
Defined.

(** ** The size of the rendered text *)

Lemma length_fill (n : nat) (c : ascii) (s : string) :
  String.length (fill n c s) = (n + String.length s)%nat.
Proof. induction n as [|n IH]; cbn; [reflexivity | rewrite IH; reflexivity]. Qed.

Lemma length_append (a b : string) :
  String.length (a ++ b) = (String.length a + String.length b)%nat.
Proof. induction a as [|ch a IH]; cbn; [reflexivity | rewrite IH; reflexivity]. Qed.

Lemma number_lengths_checked :
  forallb (fun n => Nat.eqb (String.length (number true 2 (Z.of_nat n))) 2) (seq 0 100)
  && forallb (fun n => Nat.eqb (String.length (number true 3 (Z.of_nat n))) 3) (seq 0 1000)
  && forallb (fun n => Nat.eqb (String.length (number true 4 (Z.of_nat n))) 4) (seq 0 (Z.to_nat 10000))
  = true.
Proof. vm_compute. reflexivity. Qed.

Lemma number_length (n : Z) :
  (0 <= n <= 99 -> String.length (number true 2 n) = 2%nat) /\
  (0 <= n <= 999 -> String.length (number true 3 n) = 3%nat) /\
  (0 <= n <= 9999 -> String.length (number true 4 n) = 4%nat).
Proof.
  pose proof number_lengths_checked as C.
  apply andb_true_iff in C. destruct C as [C C4].
  apply andb_true_iff in C. destruct C as [C2 C3].
  repeat split; intros Hn.
  - pose proof (proj1 (forallb_forall _ _) C2 (Z.to_nat n)) as H.
    cbv beta in H. rewrite Z2Nat.id in H by lia. apply Nat.eqb_eq, H, in_seq. lia.
  - pose proof (proj1 (forallb_forall _ _) C3 (Z.to_nat n)) as H.
    cbv beta in H. rewrite Z2Nat.id in H by lia. apply Nat.eqb_eq, H, in_seq. lia.
  - pose proof (proj1 (forallb_forall _ _) C4 (Z.to_nat n)) as H.
    cbv beta in H. rewrite Z2Nat.id in H by lia. apply Nat.eqb_eq, H, in_seq. lia.
Qed.

(** The fields are within what the widths of the format hold. *)
Lemma date_part_length (dt : dateTime_t) :
  0 <= year dt <= 9999 -> 0 <= month dt <= 99 -> 0 <= day dt <= 99 ->
  0 <= hours dt <= 99 -> 0 <= minutes dt <= 99 -> 0 <= seconds dt <= 99 ->
  0 <= millis dt <= 999 ->
  String.length (date_part dt) = 23%nat.
Proof.
  intros HY HM HD Hh Hmi Hs Hms. unfold date_part.
  rewrite !u32_small by lia. rewrite !length_append.
  rewrite (proj2 (proj2 (number_length (year dt))) HY).
  rewrite (proj1 (number_length (month dt)) HM), (proj1 (number_length (day dt)) HD),
          (proj1 (number_length (hours dt)) Hh), (proj1 (number_length (minutes dt)) Hmi),
          (proj1 (number_length (seconds dt)) Hs).
  rewrite (proj1 (proj2 (number_length (millis dt))) Hms).
  reflexivity.
Qed.

(** X16.  For every non-negative epoch scalar whose seconds fit
    [int32_t], the text [dateTimeFormatUTC] renders for the record of
    [rtcTimeToDateTime] has exactly 29 characters; so has the text of
    [dateTimeFormat] at a non-zero offset of magnitude under 6000
    minutes, when the shifted instant is in the same range. *)
Theorem rendered_text_has_29_characters
        (local dt : dateTime_t) (offset : Z) (t : rtcTime_t) :
  seconds_fit_int32 t ->
  (exists s, dateTimeFormatUTC local (rtcTimeToDateTime dt t) = Some s /\
             String.length s = 29%nat) /\
  (offset <> 0 -> -6000 < offset < 6000 -> dateTimeToRtcTime dt = Some t ->
   seconds_fit_int32 (t + offset * 60000) ->
   exists s, dateTimeFormat local dt offset = Some s /\ String.length s = 29%nat).
Proof.
  intros Hfit. split.
  - rewrite (rtcTimeToDateTime_calendar_of dt t Hfit).
    pose proof (calendar_of_bounds t Hfit) as B. cbv zeta in B.
    eexists. split.
    + unfold dateTimeFormatUTC, dateTimeFormat. cbn [Z.eqb negb].
      rewrite render_parts. reflexivity.
    + rewrite length_append, date_part_length by lia. reflexivity.
  - intros Ho Hr Et Hfit'.
    rewrite (dateTimeFormat_shifted_value local dt offset t Ho Et Hfit Hfit').
    pose proof (calendar_of_bounds _ Hfit') as B. cbv zeta in B.
    eexists. split; [reflexivity|].
    rewrite length_append, date_part_length by lia.
    unfold tz_suffix, ABS. cbn [String.length]. rewrite !length_append.
    assert (Hh : Z.abs (offset ÷ 60) <= 99).
    { destruct (Z.le_gt_cases 0 offset) as [P|N].
      - rewrite Z.quot_div_nonneg by lia.
        assert (0 <= offset / 60) by (apply Z.div_pos; lia).
        assert (offset / 60 < 100) by (apply Z.div_lt_upper_bound; lia). lia.
      - destruct (quot_rem_nonpos offset 60 ltac:(lia) ltac:(lia)) as [Q _]. rewrite Q.
        assert (0 <= - offset / 60) by (apply Z.div_pos; lia).
        assert (- offset / 60 < 100) by (apply Z.div_lt_upper_bound; lia). lia. }
    assert (Hm : Z.abs (Z.rem offset 60) <= 59).
    { destruct (Z.le_gt_cases 0 offset) as [P|N].
      - rewrite Z.rem_mod_nonneg by lia.
        pose proof (Z.mod_pos_bound offset 60 ltac:(lia)). lia.
      - destruct (quot_rem_nonpos offset 60 ltac:(lia) ltac:(lia)) as [_ R]. rewrite R.
        pose proof (Z.mod_pos_bound (- offset) 60 ltac:(lia)). lia. }
    pose proof (Z.abs_nonneg (offset ÷ 60)). pose proof (Z.abs_nonneg (Z.rem offset 60)).
    rewrite !s32_small by lia.
    rewrite (proj1 (number_length (Z.abs (offset ÷ 60)))) by lia.
    rewrite (proj1 (number_length (Z.abs (Z.rem offset 60)))) by lia.
    reflexivity.
Qed.

Lemma rendered_text_has_29_characters_witness :
  exists s, dateTimeFormat stale (mkDateTime 2025 6 15 12 30 45 123) 330 = Some s /\
            String.length s = 29%nat.
Proof.
  assert (H : seconds_fit_int32 1749990645123).
  { unfold seconds_fit_int32, MILLIS_PER_SECOND. split; [lia|]. vm_compute. discriminate. }
  apply (proj2 (rendered_text_has_29_characters
                  stale (mkDateTime 2025 6 15 12 30 45 123) 330 1749990645123 H)).
  - lia.
  - lia.
  - vm_compute. reflexivity.
  - unfold seconds_fit_int32, MILLIS_PER_SECOND. split; [lia|]. vm_compute. discriminate.
Defined.

(** ** Where the unset marker cannot be hit *)

(** X17.  An epoch scalar of [2^32] milliseconds or more (any instant
    from 1970-02-19T17:02:47.296 on) differs from every value of the
    32-bit uptime counter: after [rtcSet] with such a scalar
    [rtcHasTime] is true, and [rtcGet] at the same uptime returns the
    scalar. *)
Theorem rtcSet_late_epoch_establishes_time (u0 : Z) (t : rtcTime_t) (started : rtcState) :
  is_uptime u0 -> is_rtcTime t -> 4294967296 <= t ->
  rtcHasTime (fst (rtcSet u0 t started)) = true /\
  rtcGet u0 (fst (rtcSet u0 t started)) = Some t.
Proof.
  unfold is_uptime, is_rtcTime. intros Hu Ht Hlate.
  unfold rtcSet. cbn [fst]. rewrite (u32_small u0), s64_small by lia.
  assert (Hs : rtcHasTime (t - u0) = true).
  { unfold rtcHasTime. destruct (Z.eqb_spec (t - u0) 0) as [C|_]; [lia|reflexivity]. }
  split; [exact Hs|].
  unfold rtcGet. rewrite Hs. cbn [negb].
  rewrite (u32_small u0), s64_small by lia. apply f_equal. lia.
Qed.

Lemma rtcSet_late_epoch_establishes_time_witness :
  rtcHasTime (fst (rtcSet 4000 1749990645123 started_init)) = true /\
  rtcGet 4000 (fst (rtcSet 4000 1749990645123 started_init)) = Some 1749990645123.
Proof.
  apply (rtcSet_late_epoch_establishes_time 4000 1749990645123 started_init);
    unfold is_uptime, is_rtcTime; lia.
Defined.
